(** * StateDao: buffered log writer, client clock registry and snapshots

    A shallow embedding of [src/webapp/state_dao.py] (class [StateDao]),
    the persistence layer behind the web API of [src/webapp/web_api.py].

    The object's fields live in the record [StateDao]; the files it owns
    live in [Disk]; every method is a function in the monad [M], which
    threads the whole [World] and keeps the mutations made before an
    exception is raised, as Python does. *)

From Stdlib Require Import ZArith List String Ascii Bool Lia.
From stdpp Require Import gmap strings list fin_maps.
Import ListNotations.
Open Scope Z_scope.

(** ** Python values *)

(** A logical time: a Python number, or [None] for a client that was seen
    but not yet time-stamped.  [time.time()] returns a float of seconds;
    the model reads the clock in [Z], in one fixed unit fine enough to tell
    two readings apart, and holds [flush_frequency] in that unit. *)
Definition pytime : Type := option Z.

(** The code runs under Python 2 ([error.message] in web_api.py, rospy):
    [None] compares smaller than every number. *)
Definition py_le (a b : pytime) : bool :=
  match a, b with
  | None, _ => true
  | Some _, None => false
  | Some x, Some y => x <=? y
  end.

Definition py_lt (a b : pytime) : bool := negb (py_le b a).

Inductive exn : Type :=
  | MaximumReachedError   (* StateDao.MaximumReachedError *)
  | ZeroDivisionError
  | IndexError
  | TypeError
  | ValueError
  | IOError
  | OSError
  | LoopBound.            (* not a Python exception: the bound of a modelled
                             [while True] ran out; see [cut_scan_bound] *)

Inductive result (A : Type) : Type :=
  | Ok (a : A)
  | Raise (e : exn).
Arguments Ok {A} a.
Arguments Raise {A} e.

(** [min(iterable)]: the first smallest item; [ValueError] on an empty one. *)
Definition py_min2 (acc x : pytime) : pytime := if py_lt x acc then x else acc.

Definition py_min (l : list pytime) : result pytime :=
  match l with
  | [] => Raise ValueError
  | x :: r => Ok (fold_left py_min2 r x)
  end.

(** [l[i]] with Python's negative indices. *)
Definition py_getitem {A : Type} (l : list A) (i : Z) : result A :=
  let n := Z.of_nat (length l) in
  let j := if i <? 0 then i + n else i in
  if (0 <=? j) && (j <? n)
  then match nth_error l (Z.to_nat j) with
       | Some x => Ok x
       | None => Raise IndexError
       end
  else Raise IndexError.

(** ** Log entries *)

(** Modelled from the spec: log_entry.py ([LogEntry], its [TIME_UNIX_FIELD]
    and [get_log_string]) is not among the sources.  The spec gives the
    record's fields; one line of the log file is one serialised entry, and
    [json.loads] of a line gives back the entry's fields, so a line is held
    as the entry itself. *)
Record LogEntry : Type := mkLogEntry {
  client_id : string;
  app_id : string;
  level : string;
  message : string;
  position : option (string * string);
  time_unix : Z;
  sequence_id : string
}.

(** ** The files *)

(** [log_files]: the regular files under [log/], by path (the live log
    [log/log] and its backups); the directory itself is taken to exist, as
    after [__enter__].  [state_dir]: the directory [state/], [None] while it
    does not exist, else its files by name, each holding one JSON time
    ([json.dumps] and [json.loads] are taken as inverse on times and
    null).  The directory is flat: only a plain name opens a file in it. *)
Record Disk : Type := mkDisk {
  log_files : gmap string (list LogEntry);
  state_dir : option (gmap string pytime)
}.

Definition plain_file_name (s : string) : bool :=
  negb (String.eqb s "") && negb (String.eqb s ".") && negb (String.eqb s "..")
  && forallb (fun c => negb (Ascii.eqb c "/") && negb (Ascii.eqb c "000"))
             (list_ascii_of_string s).

(** ** The object *)

Record StateDao : Type := mkStateDao {
  _curr_min_time : pytime;
  _client_times : gmap string pytime;
  _new_log_entries : list LogEntry;
  _unique_log_file_names : list string;
  _flush_frequency : option Z;
  _max_entries_in_state : option Z;
  _auto_flush : bool;
  _last_flush : Z;
  _current_total_entries : Z;
  _max_entries_total : option Z;
  _timing_mode : bool
}.

Definition _state_file_name : string := "state".
Definition _log_file_path : string := "log/log".

Definition set_curr_min_time (v : pytime) (d : StateDao) : StateDao :=
  mkStateDao v (_client_times d) (_new_log_entries d) (_unique_log_file_names d)
    (_flush_frequency d) (_max_entries_in_state d) (_auto_flush d) (_last_flush d)
    (_current_total_entries d) (_max_entries_total d) (_timing_mode d).

Definition set_client_times (v : gmap string pytime) (d : StateDao) : StateDao :=
  mkStateDao (_curr_min_time d) v (_new_log_entries d) (_unique_log_file_names d)
    (_flush_frequency d) (_max_entries_in_state d) (_auto_flush d) (_last_flush d)
    (_current_total_entries d) (_max_entries_total d) (_timing_mode d).

Definition set_new_log_entries (v : list LogEntry) (d : StateDao) : StateDao :=
  mkStateDao (_curr_min_time d) (_client_times d) v (_unique_log_file_names d)
    (_flush_frequency d) (_max_entries_in_state d) (_auto_flush d) (_last_flush d)
    (_current_total_entries d) (_max_entries_total d) (_timing_mode d).

Definition set_unique_log_file_names (v : list string) (d : StateDao) : StateDao :=
  mkStateDao (_curr_min_time d) (_client_times d) (_new_log_entries d) v
    (_flush_frequency d) (_max_entries_in_state d) (_auto_flush d) (_last_flush d)
    (_current_total_entries d) (_max_entries_total d) (_timing_mode d).

Definition set_last_flush (v : Z) (d : StateDao) : StateDao :=
  mkStateDao (_curr_min_time d) (_client_times d) (_new_log_entries d)
    (_unique_log_file_names d) (_flush_frequency d) (_max_entries_in_state d)
    (_auto_flush d) v (_current_total_entries d) (_max_entries_total d) (_timing_mode d).

Definition set_current_total_entries (v : Z) (d : StateDao) : StateDao :=
  mkStateDao (_curr_min_time d) (_client_times d) (_new_log_entries d)
    (_unique_log_file_names d) (_flush_frequency d) (_max_entries_in_state d)
    (_auto_flush d) (_last_flush d) v (_max_entries_total d) (_timing_mode d).

(** ** The world and its monad *)

(** [ticks] counts the calls of [time.time()] made so far; the reading of
    the n-th call is [clock n], for a clock fixed from outside. *)
Record World : Type := mkWorld {
  dao : StateDao;
  disk : Disk;
  ticks : nat
}.

Definition M (A : Type) : Type := World -> result A * World.

Definition ret {A : Type} (a : A) : M A := fun w => (Ok a, w).

Definition raise {A : Type} (e : exn) : M A := fun w => (Raise e, w).

Definition bind {A B : Type} (c : M A) (k : A -> M B) : M B :=
  fun w => match c w with
           | (Ok a, w') => k a w'
           | (Raise e, w') => (Raise e, w')
           end.

Declare Scope dao_scope.
Delimit Scope dao_scope with dao.
Notation "'let!' x ':=' c 'in' k" := (bind c (fun x => k))
  (at level 10, x name, c at level 100, k at level 200) : dao_scope.
Notation "'do!' c 'in' k" := (bind c (fun _ => k))
  (at level 10, c at level 100, k at level 200) : dao_scope.
Open Scope dao_scope.

Definition get_dao : M StateDao := fun w => (Ok (dao w), w).
Definition get_disk : M Disk := fun w => (Ok (disk w), w).

Definition modify_dao (f : StateDao -> StateDao) : M unit :=
  fun w => (Ok tt, mkWorld (f (dao w)) (disk w) (ticks w)).

Definition modify_disk (f : Disk -> Disk) : M unit :=
  fun w => (Ok tt, mkWorld (dao w) (f (disk w)) (ticks w)).

Definition set_log_files (v : gmap string (list LogEntry)) (k : Disk) : Disk :=
  mkDisk v (state_dir k).

Definition set_state_dir (v : option (gmap string pytime)) (k : Disk) : Disk :=
  mkDisk (log_files k) v.

(** [os.path.lexists] of a path under [log/]. *)
Definition lexists (path : string) (k : Disk) : bool :=
  bool_decide (is_Some (log_files k !! path)).

(** [open(path, "a")] and the writes of a list of lines. *)
Definition append_lines (path : string) (ls : list LogEntry) (k : Disk) : Disk :=
  set_log_files (<[path := default [] (log_files k !! path) ++ ls]> (log_files k)) k.

(** [open(state/name, "w")] and the write of one JSON value.  The caller
    has made sure that the directory exists. *)
Definition write_state_file (name : string) (v : pytime) : M unit :=
  if plain_file_name name
  then modify_disk (fun k => set_state_dir (Some (<[name := v]> (default ∅ (state_dir k)))) k)
  else raise IOError.

(** [StateDao._delete_file_if_existing] on the path [state/name]: removing
    a plain name that is not there does nothing.  A name that is not plain
    names no file of the flat directory: for the empty name, [.] and [..]
    the path is a directory, which exists and which [os.remove] refuses
    with [OSError]; a name with a separator leads out of the directory,
    where the model does not follow and refuses the same way. *)
Definition _delete_file_if_existing (name : string) : M unit :=
  if plain_file_name name
  then modify_disk (fun k => set_state_dir (delete name <$> state_dir k) k)
  else raise OSError.

Definition lift {A : Type} (r : result A) : M A := fun w => (r, w).

(** [for x in l: body(x)] *)
Fixpoint for_each {A : Type} (l : list A) (body : A -> M unit) : M unit :=
  match l with
  | [] => ret tt
  | x :: r => do! body x in for_each r body
  end.

(** ** The methods *)

Section Methods.

(** The host: the readings of [time.time()], and
    [time.strftime("%Y-%m-%d_%H-%M-%S", time.localtime(t))]. *)
Variable clock : nat -> Z.
Variable time_str : Z -> string.

Definition time_time : M Z :=
  fun w => (Ok (clock (ticks w)), mkWorld (dao w) (disk w) (S (ticks w))).

Definition queued (d : StateDao) : Z := Z.of_nat (length (_new_log_entries d)).

Definition _maximum_reached (include_state : bool) (d : StateDao) : bool :=
  match _max_entries_total d with
  | None => false
  | Some max_total =>
      let current_count := _current_total_entries d in
      let current_count :=
        if include_state then current_count + queued d else current_count in
      max_total <=? current_count
  end.

Definition flush_log : M unit :=
  let! d := get_dao in
  let number_of_entries := length (_new_log_entries d) in
  if (number_of_entries =? 0)%nat then ret tt else
  (* timing mode prints the clock *)
  do! (if _timing_mode d then (let! _t := time_time in ret tt) else ret tt) in
  if _maximum_reached false d then raise MaximumReachedError else
  let! time_now := time_time in
  do! modify_dao (set_current_total_entries
                    (_current_total_entries d + Z.of_nat number_of_entries)) in
  let time_since_last_flush := time_now - _last_flush d in
  (* velocity_second = int(float(flushed_entry_count) / time_since_last_flush);
     the message built from it is printed and has no other effect *)
  if time_since_last_flush =? 0 then raise ZeroDivisionError else
  (* number_of_entries times: pop(0) and write the line *)
  do! modify_disk (append_lines _log_file_path
                     (firstn number_of_entries (_new_log_entries d))) in
  do! modify_dao (set_new_log_entries (skipn number_of_entries (_new_log_entries d))) in
  modify_dao (set_last_flush time_now).

Definition get_current_min_time : M pytime :=
  let! d := get_dao in ret (_curr_min_time d).

Definition set_client_time (identifier : string) (new_time : pytime) : M unit :=
  do! modify_dao (fun d => set_client_times (<[identifier := new_time]> (_client_times d)) d) in
  let! d := get_dao in
  match _curr_min_time d with
  | None => modify_dao (set_curr_min_time new_time)
  | Some _ =>
      let! m := lift (py_min ((map_to_list (_client_times d)).*2)) in
      modify_dao (set_curr_min_time m)
  end.

Definition get_client_time (identifier : string) : M pytime :=
  let! d := get_dao in
  match _client_times d !! identifier with
  | Some t => ret t
  | None => do! set_client_time identifier None in ret None
  end.

Definition append_to_log (log_entry : LogEntry) : M unit :=
  do! modify_dao (fun d => set_new_log_entries (_new_log_entries d ++ [log_entry]) d) in
  let! d := get_dao in
  if _maximum_reached true d then flush_log else
  if negb (_auto_flush d) then ret tt else
  let! do_auto_flush :=
    (if match _max_entries_in_state d with
        | Some m => m <=? queued d
        | None => false
        end
     then ret true
     else match _flush_frequency d with
          | Some f => let! now := time_time in ret (_last_flush d + f <=? now)
          | None => ret false
          end) in
  if do_auto_flush then flush_log else ret tt.

Definition _create_log_file_name_from_time (t : Z) : string :=
  _log_file_path +:+ "_until_" +:+ time_str t.

Definition _create_unique_log_file_path : M string :=
  let! time_unix := time_time in
  let new_file_name := _create_log_file_name_from_time time_unix in
  let! d := get_dao in
  let! k := get_disk in
  if lexists new_file_name k
     || bool_decide (new_file_name ∈ _unique_log_file_names d)
  then
    (* time_unix += datetime.timedelta(seconds=1): a float plus a timedelta *)
    raise TypeError
  else
    do! modify_dao (fun d => set_unique_log_file_names
                               (_unique_log_file_names d ++ [new_file_name]) d) in
    ret new_file_name.

Definition create_unique_log_file_path : M string := _create_unique_log_file_path.

Definition count_log_lines : M Z :=
  let! d := get_dao in
  let! k := get_disk in
  let log_line_count := queued d in
  match log_files k !! _log_file_path with
  | None => ret log_line_count
  | Some lines => ret (log_line_count + Z.of_nat (length lines))
  end.

(** [count_log_lines] as the constructor calls it, the queue still empty. *)
Definition initial_log_line_count (k : Disk) : Z :=
  match log_files k !! _log_file_path with
  | None => 0
  | Some lines => 0 + Z.of_nat (length lines)
  end.

(** The [while True] of [cut_log]: each round reads
    [log_lines[current_index]] and either stops or pops the last line.
    [bound] limits the rounds of the model. *)
Fixpoint cut_scan (bound : nat) (log_lines : list LogEntry) (current_index : Z)
    (min_time : pytime) : result (list LogEntry) :=
  match bound with
  | O => Raise LoopBound
  | S bound' =>
      match py_getitem log_lines current_index with
      | Raise e => Raise e
      | Ok entry =>
          if py_le (Some (time_unix entry)) min_time
          then Ok log_lines
          else cut_scan bound' (removelast log_lines) (current_index - 1) min_time
      end
  end.

(** [shutil.copyfile] between two paths under [log/]. *)
Definition copyfile (src dst : string) : M unit :=
  let! k := get_disk in
  match log_files k !! src with
  | Some content => modify_disk (set_log_files (<[dst := content]> (log_files k)))
  | None => raise IOError
  end.

Definition cut_log : M (option (Z * Z * string)) :=
  let! k := get_disk in
  if negb (lexists _log_file_path k) then ret None else
  let! new_file_path := create_unique_log_file_path in
  do! flush_log in
  do! copyfile _log_file_path new_file_path in
  let! k := get_disk in
  let log_lines := default [] (log_files k !! new_file_path) in
  let log_length := Z.of_nat (length log_lines) in
  let current_index := Z.of_nat (length log_lines) - 1 in
  let! d := get_dao in
  let! log_lines :=
    lift (cut_scan (S (length log_lines)) log_lines current_index (_curr_min_time d)) in
  do! modify_disk (fun k => set_log_files (<[new_file_path := log_lines]> (log_files k)) k) in
  ret (Some (log_length - Z.of_nat (length log_lines), log_length, new_file_path)).

Definition _rename_log_file : M string :=
  let! k := get_disk in
  match log_files k !! _log_file_path with
  | None => ret "File doesn't exist"
  | Some content =>
      let! new_file_name := _create_unique_log_file_path in
      do! modify_disk (fun k => set_log_files
             (<[new_file_name := content]> (delete _log_file_path (log_files k))) k) in
      ret "File was renamed successfully"
  end.

Definition _get_client_file_paths (d : StateDao) : list string :=
  (map_to_list (_client_times d)).*1.

Definition _delete_state_files : M string :=
  let! k := get_disk in
  match state_dir k with
  | None => ret "Folder doesn't exist"
  | Some _ =>
      do! _delete_file_if_existing _state_file_name in
      let! d := get_dao in
      do! for_each (_get_client_file_paths d)
            (fun client_file => _delete_file_if_existing client_file) in
      ret "Cleared successfully"
  end.

Definition _clear_internal_state : M unit :=
  do! modify_dao (set_curr_min_time None) in
  do! modify_dao (set_client_times ∅) in
  modify_dao (set_new_log_entries []).

Definition reset : M string :=
  do! flush_log in
  let! log_msg := _rename_log_file in
  let! state_msg := _delete_state_files in
  do! _clear_internal_state in
  ret ("Log file: " +:+ log_msg +:+ String "010" "State files: " +:+ state_msg).

Definition _load_state_from_file (file_name : string) : M unit :=
  let! k := get_disk in
  match default ∅ (state_dir k) !! file_name with
  | None => raise IOError
  | Some state_from_file =>
      if String.eqb file_name _state_file_name
      then modify_dao (set_curr_min_time state_from_file)
      else modify_dao (fun d => set_client_times
                                  (<[file_name := state_from_file]> (_client_times d)) d)
  end.

Definition mkdir_state : M unit :=
  modify_disk (fun k => match state_dir k with
                        | None => set_state_dir (Some ∅) k
                        | Some _ => k
                        end).

Definition _write_all_to_files : M unit :=
  do! mkdir_state in
  let! d := get_dao in
  do! write_state_file _state_file_name (_curr_min_time d) in
  do! for_each (map_to_list (_client_times d))
        (fun kv => write_state_file kv.1 kv.2) in
  flush_log.

(** [__init__], past its first check: the constructor in a process that
    has no instance yet ([StateDao._INSTANCE] not set) reads the disk and
    the clock and gives the new object.  The check of [_INSTANCE] and its
    recording are in [StateDao_new] below, over a [Process]. *)
Definition __init__ (flush_frequency max_entries_in_state max_entries_total : option Z)
    (k : Disk) (tk : nat) : result World :=
  if existsb (fun x => x <=? 0)
       (omap id [flush_frequency; max_entries_in_state; max_entries_total])
  then Raise ValueError
  else
    Ok (mkWorld
          (mkStateDao None ∅ [] []
             flush_frequency max_entries_in_state
             (bool_decide (is_Some flush_frequency) || bool_decide (is_Some max_entries_in_state))
             (clock tk)
             (initial_log_line_count k)
             max_entries_total
             (bool_decide (max_entries_total = Some 1)))
          k (S tk)).

Definition __enter__ : M unit :=
  do! mkdir_state in
  let! k := get_disk in
  let files := (map_to_list (default ∅ (state_dir k))).*1 in
  for_each files _load_state_from_file.

Definition __exit__ : M unit := _write_all_to_files.

End Methods.

(** ** What a flush does *)

(** The clock tick at which [flush_log] takes [time_now]: one later in
    timing mode, which prints the clock first. *)
Definition flush_tick (w : World) : nat :=
  if _timing_mode (dao w) then S (ticks w) else ticks w.

(** The object after a flush that wrote the whole queue at time [now]. *)
Definition flushed_dao (now : Z) (d : StateDao) : StateDao :=
  set_last_flush now
    (set_new_log_entries []
       (set_current_total_entries (_current_total_entries d + queued d) d)).

(** The four ways [flush_log] ends. *)
Inductive flush_outcome (clock : nat -> Z) (w : World) : result unit * World -> Prop :=
  | flush_idle :
      _new_log_entries (dao w) = [] ->
      flush_outcome clock w (Ok tt, w)
  | flush_refused :
      _new_log_entries (dao w) <> [] ->
      _maximum_reached false (dao w) = true ->
      flush_outcome clock w
        (Raise MaximumReachedError, mkWorld (dao w) (disk w) (flush_tick w))
  | flush_zero_division :
      _new_log_entries (dao w) <> [] ->
      _maximum_reached false (dao w) = false ->
      clock (flush_tick w) = _last_flush (dao w) ->
      flush_outcome clock w
        (Raise ZeroDivisionError,
         mkWorld (set_current_total_entries
                    (_current_total_entries (dao w) + queued (dao w)) (dao w))
                 (disk w) (S (flush_tick w)))
  | flush_written :
      _new_log_entries (dao w) <> [] ->
      _maximum_reached false (dao w) = false ->
      clock (flush_tick w) <> _last_flush (dao w) ->
      flush_outcome clock w
        (Ok tt,
         mkWorld (flushed_dao (clock (flush_tick w)) (dao w))
                 (append_lines _log_file_path (_new_log_entries (dao w)) (disk w))
                 (S (flush_tick w))).

(** ** Worlds for the examples *)

Definition entry_at (t : Z) : LogEntry :=
  mkLogEntry "vin" "COLOUR" "INFO" "red" None t "0".

(** A clock that starts at 1000 and advances by one unit per reading. *)
Definition ticking (n : nat) : Z := 1000 + Z.of_nat n.

(** A clock that stands still. *)
Definition stopped (n : nat) : Z := 1000.

(** A formatter of times for file names: all times of one model "second"
    (ten clock units) give one name. *)
Definition second_str (t : Z) : string :=
  if t / 10 =? 100 then "2017-12-20_18-08-25" else "2017-12-20_18-08-26".

Definition empty_disk : Disk := mkDisk ∅ (Some ∅).

(** An object with the given registry and queue, nothing configured. *)
Definition dao_with (min_time : pytime) (clients : gmap string pytime)
    (queue : list LogEntry) (total : Z) (max_total : option Z) : StateDao :=
  mkStateDao min_time clients queue [] None None false 0 total max_total false.

(** ** Runs of the writer *)

(** What a producer does to the writer; an exception of either call is
    caught by the caller, and the world goes on from where it was raised. *)
Inductive op : Type :=
  | Append (e : LogEntry)
  | Flush.

Definition run_op (clock : nat -> Z) (o : op) (w : World) : World :=
  match o with
  | Append e => snd (append_to_log clock e w)
  | Flush => snd (flush_log clock w)
  end.

Definition run_ops (clock : nat -> Z) (ops : list op) (w : World) : World :=
  fold_left (fun w o => run_op clock o w) ops w.

(** The lines of the live log file. *)
Definition persisted_count (k : Disk) : Z :=
  Z.of_nat (length (default [] (log_files k !! _log_file_path))).

(** The writer's capacity invariant for a cap of [N]: the file holds no more
    lines than the counter says and no more than [N], and while the counter
    is below [N] there is room for the whole queue, with one line to spare. *)
Definition capacity_inv (N : Z) (w : World) : Prop :=
  _max_entries_total (dao w) = Some N
  /\ persisted_count (disk w) <= _current_total_entries (dao w)
  /\ persisted_count (disk w) <= N
  /\ (_current_total_entries (dao w) < N ->
      persisted_count (disk w) + queued (dao w) < N).

(** The same between the enqueueing of [append_to_log] and its checks. *)
Definition capacity_pre (N : Z) (w : World) : Prop :=
  _max_entries_total (dao w) = Some N
  /\ persisted_count (disk w) <= _current_total_entries (dao w)
  /\ persisted_count (disk w) <= N
  /\ (_current_total_entries (dao w) < N ->
      persisted_count (disk w) + queued (dao w) <= N).

(** The object once [append_to_log] has enqueued [e], before its checks. *)
Definition enqueued (e : LogEntry) (d : StateDao) : StateDao :=
  set_new_log_entries (_new_log_entries d ++ [e]) d.

(** The lines of the live log file, none while it does not exist. *)
Definition log_lines_of (k : Disk) : list LogEntry :=
  default [] (log_files k !! _log_file_path).

(** ** Snapshots as pure functions *)

(** The loop of [_write_all_to_files] over the registry's items, on the
    directory alone. *)
Definition insert_all (items : list (string * pytime)) (sd : gmap string pytime) :
    gmap string pytime :=
  fold_left (fun acc kv => <[kv.1 := kv.2]> acc) items sd.

(** What [_load_state_from_file] does to the object for a file found in
    the directory [sd]. *)
Definition load_one (sd : gmap string pytime) (d : StateDao) (file_name : string) :
    StateDao :=
  match sd !! file_name with
  | None => d
  | Some v =>
      if String.eqb file_name _state_file_name
      then set_curr_min_time v d
      else set_client_times (<[file_name := v]> (_client_times d)) d
  end.

(** The loop of [__enter__] over the file names, on the object alone. *)
Definition load_all (sd : gmap string pytime) (files : list string) (d : StateDao) :
    StateDao :=
  fold_left (load_one sd) files d.

(** ** Further definitions: producers and callers *)

(** The entries a run hands to [append_to_log], in order. *)
Definition appended (ops : list op) : list LogEntry :=
  flat_map (fun o => match o with Append e => [e] | Flush => [] end) ops.

(** [_create_client_time] of web_api.py, the caller that advances a
    client's clock.  The two draws of [random] are arguments: [jump] is
    [random.randint(3600, 57600)], and [pick] is the index that
    [random.choice] takes in the list of twenty candidates. *)
Definition _create_client_time (clock : nat -> Z) (identifier : string)
    (jump : Z) (pick : nat) : M Z :=
  let! client_time := get_client_time identifier in
  let! time_now := time_time clock in
  match client_time with
  | None =>
      do! set_client_time identifier (Some time_now) in
      ret time_now
  | Some client_time =>
      let time_choice :=
        nth (pick mod 20) (repeat client_time 19 ++ [client_time + jump]) client_time in
      do! set_client_time identifier (Some time_choice) in
      ret time_choice
  end.


(** A process: the class attribute [StateDao._INSTANCE], the files and
    the clock tick. *)
Record Process : Type := mkProcess {
  _INSTANCE : option StateDao;
  process_disk : Disk;
  process_ticks : nat
}.

Definition process_of (w : World) : Process :=
  mkProcess (Some (dao w)) (disk w) (ticks w).

(** [StateDao(...)]: the whole constructor.  A process that has an instance
    gets [ValueError] ("DAO is already instantiated!"); otherwise the
    settings are checked and the new object is recorded as the instance. *)
Definition StateDao_new (clock : nat -> Z)
    (flush_frequency max_entries_in_state max_entries_total : option Z)
    (p : Process) : result unit * Process :=
  match _INSTANCE p with
  | Some _ => (Raise ValueError, p)
  | None =>
      match __init__ clock flush_frequency max_entries_in_state max_entries_total
              (process_disk p) (process_ticks p) with
      | Ok w => (Ok tt, process_of w)
      | Raise e => (Raise e, p)
      end
  end.


(** The value of [min(self._client_times.values())] for a registry that is
    not empty. *)
Definition registry_min (clients : gmap string pytime) : pytime :=
  match py_min (map_to_list clients).*2 with
  | Ok m => m
  | Raise _ => None
  end.

(** The loop of [_delete_state_files] over the client files, on the
    directory alone. *)
Definition delete_all (names : list string) (sd : gmap string pytime) :
    gmap string pytime :=
  fold_left (fun acc name => delete name acc) names sd.

(** ** Sessions *)

(** The calls of one session on the object, as the web API and an operator
    make them; an exception is caught by the caller and the session goes
    on. *)
Inductive session_op : Type :=
  | DoAppend (e : LogEntry)
  | DoFlush
  | DoCut
  | DoReset
  | DoUniquePath
  | DoCountLines
  | DoSetClientTime (identifier : string) (new_time : pytime)
  | DoGetClientTime (identifier : string).

Definition run_session_op (clock : nat -> Z) (time_str : Z -> string)
    (o : session_op) (w : World) : World :=
  match o with
  | DoAppend e => snd (append_to_log clock e w)
  | DoFlush => snd (flush_log clock w)
  | DoCut => snd (cut_log clock time_str w)
  | DoReset => snd (reset clock time_str w)
  | DoUniquePath => snd (create_unique_log_file_path clock time_str w)
  | DoCountLines => snd (count_log_lines w)
  | DoSetClientTime identifier new_time => snd (set_client_time identifier new_time w)
  | DoGetClientTime identifier => snd (get_client_time identifier w)
  end.

Definition run_session (clock : nat -> Z) (time_str : Z -> string)
    (ops : list session_op) (w : World) : World :=
  fold_left (fun w o => run_session_op clock time_str o w) ops w.

(** A computation under which the list of names given out only grows. *)
Definition keeps_names {A : Type} (c : M A) : Prop :=
  forall w, exists l,
    _unique_log_file_names (dao (snd (c w))) = _unique_log_file_names (dao w) ++ l.

(** * Proofs *)

(** Unfold the monad and project the records, nothing else. *)
Ltac run_m :=
  unfold bind, ret, raise, lift, get_dao, get_disk, modify_dao, modify_disk,
    time_time;
  cbn [dao disk ticks fst snd log_files state_dir set_log_files set_state_dir].

Ltac unfold_m :=
  unfold bind, ret, raise, lift, get_dao, get_disk, modify_dao, modify_disk,
    time_time in *; simpl in *.

Lemma flush_log_outcome (clock : nat -> Z) (w : World) :
  flush_outcome clock w (flush_log clock w).
Proof.
  destruct w as [d k tk].
  unfold flush_log. unfold_m.
  destruct (_new_log_entries d) as [|e q] eqn:Hq; simpl.
  - apply flush_idle. exact Hq.
  - assert (Hne : _new_log_entries (dao (mkWorld d k tk)) <> [])
      by (simpl; rewrite Hq; discriminate).
    assert (Hmax : _maximum_reached false (set_new_log_entries (e :: q) d)
                   = _maximum_reached false d) by reflexivity.
    destruct (_timing_mode d) eqn:Htm; simpl;
      destruct (_maximum_reached false d) eqn:Hm; simpl.
    + replace (S tk) with (flush_tick (mkWorld d k tk))
        by (unfold flush_tick; simpl; rewrite Htm; reflexivity).
      apply flush_refused; assumption.
    + destruct (clock (S tk) - _last_flush d =? 0) eqn:Hz.
      * apply Z.eqb_eq in Hz.
        pose proof (flush_zero_division clock (mkWorld d k tk) Hne Hm) as H.
        unfold flush_tick, queued in H; simpl in H. rewrite Htm, Hq in H.
        apply H. lia.
      * apply Z.eqb_neq in Hz.
        pose proof (flush_written clock (mkWorld d k tk) Hne Hm) as H.
        unfold flush_tick, flushed_dao, queued in H; simpl in H.
        rewrite Htm, Hq in H. simpl in H.
        rewrite firstn_all, skipn_all.
        apply H. lia.
    + replace tk with (flush_tick (mkWorld d k tk)) at 2
        by (unfold flush_tick; simpl; rewrite Htm; reflexivity).
      apply flush_refused; assumption.
    + destruct (clock tk - _last_flush d =? 0) eqn:Hz.
      * apply Z.eqb_eq in Hz.
        pose proof (flush_zero_division clock (mkWorld d k tk) Hne Hm) as H.
        unfold flush_tick, queued in H; simpl in H. rewrite Htm, Hq in H.
        apply H. lia.
      * apply Z.eqb_neq in Hz.
        pose proof (flush_written clock (mkWorld d k tk) Hne Hm) as H.
        unfold flush_tick, flushed_dao, queued in H; simpl in H.
        rewrite Htm, Hq in H. simpl in H.
        rewrite firstn_all, skipn_all.
        apply H. lia.
Qed.

Lemma flush_log_ok_empties (clock : nat -> Z) (w w' : World) :
  flush_log clock w = (Ok tt, w') -> _new_log_entries (dao w') = [].
Proof.
  intros H. pose proof (flush_log_outcome clock w) as Ho. rewrite H in Ho.
  inversion Ho; subst; simpl; auto.
Qed.

Lemma flush_log_idle (clock : nat -> Z) (w : World) :
  _new_log_entries (dao w) = [] -> flush_log clock w = (Ok tt, w).
Proof.
  intros Hq. pose proof (flush_log_outcome clock w) as Ho.
  inversion Ho; subst; congruence.
Qed.

(** A flush at a clock reading equal to the time of the last flush: the
    counter has been advanced when the velocity's division fails; the file
    is not written and the queue is kept. *)
Example flush_log_on_stopped_clock :
  let w := mkWorld (mkStateDao None ∅ [entry_at 1] [] None None false 1000 0 None false)
                   empty_disk 1 in
  flush_log stopped w
  = (Raise ZeroDivisionError,
     mkWorld (mkStateDao None ∅ [entry_at 1] [] None None false 1000 1 None false)
             empty_disk 2).
Proof. reflexivity. Qed.

(** ** C10: an empty queue makes flush_log a no-op *)

(** C10.  In every state whose queue of new log entries is empty --- so in
    every state a successful [flush_log] has just left --- [flush_log]
    returns normally and changes nothing: not the file, not a counter, not
    the clock tick.  The state is arbitrary, so this holds as well when
    [max_entries_total] is set and the persisted-only maximum is reached:
    the emptiness check comes first, and a second [flush_log] right after a
    successful one cannot raise [MaximumReachedError]. *)
Theorem flush_log_empty_queue_noop (clock : nat -> Z) (w : World) :
  _new_log_entries (dao w) = [] \/ (exists w0, flush_log clock w0 = (Ok tt, w)) ->
  flush_log clock w = (Ok tt, w).
Proof.
  intros H. apply flush_log_idle.
  destruct H as [H | [w0 H]]; [exact H | eapply flush_log_ok_empties; exact H].
Qed.

(** The maximum of 2 is reached on disk, the queue is empty. *)
Lemma flush_log_empty_queue_noop_witness :
  let w := mkWorld (dao_with None ∅ [] 2 (Some 2))
                   (mkDisk {[ _log_file_path := [entry_at 1; entry_at 2] ]} (Some ∅)) 1 in
  _maximum_reached false (dao w) = true /\ flush_log ticking w = (Ok tt, w).
Proof.
  split; [reflexivity |].
  apply flush_log_empty_queue_noop. left. reflexivity.
Defined.

(** ** C3: the file never holds more than max_entries_total lines *)

Lemma persisted_count_append_lines (ls : list LogEntry) (k : Disk) :
  persisted_count (append_lines _log_file_path ls k)
  = persisted_count k + Z.of_nat (length ls).
Proof.
  unfold persisted_count, append_lines. simpl.
  rewrite lookup_insert_eq. simpl. rewrite length_app. lia.
Qed.

Lemma maximum_reached_persisted (N : Z) (d : StateDao) :
  _max_entries_total d = Some N ->
  _maximum_reached false d = (N <=? _current_total_entries d).
Proof. intros H. unfold _maximum_reached. rewrite H. reflexivity. Qed.

Lemma maximum_reached_inclusive (N : Z) (d : StateDao) :
  _max_entries_total d = Some N ->
  _maximum_reached true d = (N <=? _current_total_entries d + queued d).
Proof. intros H. unfold _maximum_reached. rewrite H. reflexivity. Qed.

Lemma flush_log_capacity (clock : nat -> Z) (N : Z) (w : World) :
  capacity_pre N w -> capacity_inv N (snd (flush_log clock w)).
Proof.
  intros (Hmax & Hfc & HfN & Hroom).
  pose proof (flush_log_outcome clock w) as Ho.
  inversion Ho as [Hq | Hq Hm | Hq Hm Hz | Hq Hm Hz]; simpl.
  - unfold capacity_inv. unfold queued in *. rewrite Hq in *. simpl in *.
    repeat split; auto; lia.
  - rewrite (maximum_reached_persisted N) in Hm by exact Hmax.
    apply Z.leb_le in Hm.
    unfold capacity_inv; simpl. repeat split; auto; lia.
  - rewrite (maximum_reached_persisted N) in Hm by exact Hmax.
    apply Z.leb_gt in Hm.
    unfold capacity_inv; simpl; unfold queued in *; simpl. repeat split; auto; lia.
  - rewrite (maximum_reached_persisted N) in Hm by exact Hmax.
    apply Z.leb_gt in Hm.
    unfold capacity_inv; simpl; unfold queued in *; simpl.
    rewrite persisted_count_append_lines.
    repeat split; auto; lia.
Qed.

Lemma append_to_log_capacity (clock : nat -> Z) (N : Z) (e : LogEntry) (w : World) :
  capacity_inv N w -> capacity_inv N (snd (append_to_log clock e w)).
Proof.
  intros (Hmax & Hfc & HfN & Hroom).
  destruct w as [d k tk]. simpl in *.
  set (d1 := set_new_log_entries (_new_log_entries d ++ [e]) d).
  assert (Hq1 : queued d1 = queued d + 1).
  { unfold d1, queued; simpl. rewrite length_app. simpl. lia. }
  assert (Hpre : forall tk', capacity_pre N (mkWorld d1 k tk')).
  { intros tk'. unfold capacity_pre; simpl. rewrite Hq1.
    repeat split; auto; lia. }
  unfold append_to_log. unfold_m. fold d1.
  destruct (_maximum_reached true d1) eqn:Hincl.
  - apply flush_log_capacity, Hpre.
  - rewrite (maximum_reached_inclusive N) in Hincl by exact Hmax.
    apply Z.leb_gt in Hincl. simpl in Hincl.
    assert (Hinv : forall tk', capacity_inv N (mkWorld d1 k tk')).
    { intros tk'. unfold capacity_inv; simpl. repeat split; auto; lia. }
    destruct (_auto_flush d); simpl; [| apply Hinv].
    destruct (match _max_entries_in_state d with
              | Some m => m <=? queued d1
              | None => false
              end); simpl.
    + apply flush_log_capacity, Hpre.
    + destruct (_flush_frequency d) as [f|]; simpl; [| apply Hinv].
      destruct (_last_flush d + f <=? clock tk); simpl;
        [apply flush_log_capacity, Hpre | apply Hinv].
Qed.

Lemma run_ops_capacity (clock : nat -> Z) (N : Z) (ops : list op) (w : World) :
  capacity_inv N w -> capacity_inv N (run_ops clock ops w).
Proof.
  revert w. induction ops as [|o ops IH]; intros w Hinv; simpl; [exact Hinv |].
  apply IH. destruct o; simpl.
  - apply append_to_log_capacity, Hinv.
  - apply flush_log_capacity.
    destruct Hinv as (H1 & H2 & H3 & H4). repeat split; auto; lia.
Qed.

Lemma init_capacity (clock : nat -> Z) (ff mis : option Z) (N : Z) (k : Disk)
    (tk : nat) (w : World) :
  initial_log_line_count k = 0 ->
  __init__ clock ff mis (Some N) k tk = Ok w ->
  0 < N /\ capacity_inv N w.
Proof.
  intros Hempty Hinit. unfold __init__ in Hinit.
  destruct (existsb _ _) eqn:Hbad; [discriminate |].
  inversion Hinit; subst w; clear Hinit.
  assert (HN : 0 < N).
  { destruct ff, mis; simpl in Hbad;
      repeat (apply orb_false_iff in Hbad; destruct Hbad as [? Hbad]);
      repeat match goal with H : (_ <=? 0) = false |- _ => apply Z.leb_gt in H end;
      lia. }
  split; [exact HN |].
  unfold capacity_inv, persisted_count, queued; simpl.
  rewrite Hempty. unfold initial_log_line_count in Hempty.
  destruct (log_files k !! _log_file_path) as [ls|]; simpl;
    repeat split; auto; lia.
Qed.

(** C3.  An object built with [max_entries_total = N] over an empty (or
    absent) log file: after any sequence of [append_to_log] and [flush_log]
    calls, however long, the log file holds at most [N] lines; and once it
    holds [N], a [flush_log] with entries queued raises
    [MaximumReachedError] before anything is written, leaving file and
    object as they were. *)
Theorem persisted_never_exceeds_max (clock : nat -> Z) (ff mis : option Z) (N : Z)
    (k : Disk) (tk : nat) (w : World) (ops : list op) :
  initial_log_line_count k = 0 ->
  __init__ clock ff mis (Some N) k tk = Ok w ->
  let w' := run_ops clock ops w in
  persisted_count (disk w') <= N
  /\ (persisted_count (disk w') = N -> _new_log_entries (dao w') <> [] ->
      exists w'', flush_log clock w' = (Raise MaximumReachedError, w'')
                  /\ disk w'' = disk w' /\ dao w'' = dao w').
Proof.
  intros Hempty Hinit w'.
  destruct (init_capacity clock ff mis N k tk w Hempty Hinit) as [HN Hinv].
  pose proof (run_ops_capacity clock N ops w Hinv) as (Hmax & Hfc & HfN & Hroom).
  fold w' in Hmax, Hfc, HfN, Hroom.
  split; [exact HfN |].
  intros Hfull Hq.
  pose proof (flush_log_outcome clock w') as Ho.
  assert (Hm : _maximum_reached false (dao w') = true).
  { rewrite (maximum_reached_persisted N) by exact Hmax. apply Z.leb_le. lia. }
  inversion Ho as [Hq' | Hq' Hm' | Hq' Hm' Hz | Hq' Hm' Hz]; try congruence.
  eexists. split; [reflexivity |]. split; reflexivity.
Qed.

Lemma persisted_never_exceeds_max_witness :
  exists w,
    __init__ ticking None None (Some 2) empty_disk 0 = Ok w
    /\ persisted_count
         (disk (run_ops ticking
                  [Append (entry_at 1); Append (entry_at 2); Append (entry_at 3);
                   Flush; Append (entry_at 4)] w)) <= 2.
Proof.
  eexists. split; [reflexivity |].
  pose proof (persisted_never_exceeds_max ticking None None 2 empty_disk 0 _
                [Append (entry_at 1); Append (entry_at 2); Append (entry_at 3);
                 Flush; Append (entry_at 4)] eq_refl eq_refl) as [H _].
  exact H.
Defined.

(** ** C2: what append_to_log does at the cap *)

Lemma log_lines_of_append_lines (ls : list LogEntry) (k : Disk) :
  log_lines_of (append_lines _log_file_path ls k) = log_lines_of k ++ ls.
Proof.
  unfold log_lines_of, append_lines. simpl. rewrite lookup_insert_eq. reflexivity.
Qed.

(** C2, as the code has it.  When [append_to_log] finds the inclusive
    maximum reached (lines counted as persisted plus queued entries, the
    new one among them), it calls [flush_log] and returns what that gives.
    While the counter of persisted lines is still below the cap --- the
    append that crosses it --- the queue, new entry included, is written to
    the log file in order and [append_to_log] returns normally: no
    [MaximumReachedError] reaches the caller.  (The clock reading at the
    flush must differ from the time of the last flush; the velocity is a
    division by their difference.)  Once the counter has reached the cap,
    the flush is refused: [MaximumReachedError] reaches the caller, nothing
    is written and the new entry stays queued. *)
Theorem append_to_log_at_cap (clock : nat -> Z) (w : World) (e : LogEntry) :
  _maximum_reached true (enqueued e (dao w)) = true ->
  (_maximum_reached false (dao w) = false ->
   clock (flush_tick w) <> _last_flush (dao w) ->
   exists w', append_to_log clock e w = (Ok tt, w')
              /\ log_lines_of (disk w')
                 = log_lines_of (disk w) ++ _new_log_entries (dao w) ++ [e]
              /\ _new_log_entries (dao w') = [])
  /\ (_maximum_reached false (dao w) = true ->
      exists w', append_to_log clock e w = (Raise MaximumReachedError, w')
                 /\ disk w' = disk w
                 /\ _new_log_entries (dao w') = _new_log_entries (dao w) ++ [e]).
Proof.
  intros Hincl.
  destruct w as [d k tk]. simpl in *.
  set (w1 := mkWorld (enqueued e d) k tk).
  assert (Happ : append_to_log clock e (mkWorld d k tk) = flush_log clock w1).
  { unfold append_to_log. unfold_m. fold (enqueued e d). rewrite Hincl. reflexivity. }
  assert (Hne : _new_log_entries (dao w1) <> []).
  { simpl. destruct (_new_log_entries d); discriminate. }
  assert (Hmeq : _maximum_reached false (dao w1) = _maximum_reached false d)
    by reflexivity.
  assert (Hteq : flush_tick w1 = flush_tick (mkWorld d k tk)) by reflexivity.
  assert (Hleq : _last_flush (dao w1) = _last_flush d) by reflexivity.
  pose proof (flush_log_outcome clock w1) as Ho.
  split.
  - intros Hm Hclock.
    inversion Ho as [Hq | Hq Hm' | Hq Hm' Hz | Hq Hm' Hz];
      try congruence.
    exists (mkWorld (flushed_dao (clock (flush_tick w1)) (dao w1))
                    (append_lines _log_file_path (_new_log_entries (dao w1)) (disk w1))
                    (S (flush_tick w1))).
    split; [rewrite Happ; symmetry; assumption |].
    simpl. rewrite log_lines_of_append_lines. split; reflexivity.
  - intros Hm.
    inversion Ho as [Hq | Hq Hm' | Hq Hm' Hz | Hq Hm' Hz];
      try congruence.
    exists (mkWorld (dao w1) (disk w1) (flush_tick w1)).
    split; [rewrite Happ; symmetry; assumption |].
    simpl. split; reflexivity.
Qed.

(** A cap of 2, one line persisted, nothing queued: the append crosses the
    cap, flushes and returns. *)
Lemma append_to_log_at_cap_witness :
  let w := mkWorld (dao_with None ∅ [] 1 (Some 2))
                   (mkDisk {[ _log_file_path := [entry_at 1] ]} (Some ∅)) 1 in
  exists w', append_to_log ticking (entry_at 2) w = (Ok tt, w')
             /\ log_lines_of (disk w') = [entry_at 1; entry_at 2].
Proof.
  intros w.
  destruct (append_to_log_at_cap ticking w (entry_at 2) eq_refl) as [Hcross _].
  destruct (Hcross eq_refl) as (w' & Hrun & Hlines & _).
  - vm_compute. discriminate.
  - exists w'. split; [exact Hrun | exact Hlines].
Defined.

(** The inclusive maximum is reached by this very append, the entries are
    flushed, and the caller sees a normal return, not the error. *)
Lemma append_to_log_at_cap_counterexample :
  let w := mkWorld (dao_with None ∅ [entry_at 1] 0 (Some 2)) empty_disk 1 in
  let r := append_to_log ticking (entry_at 2) w in
  _maximum_reached true (enqueued (entry_at 2) (dao w)) = true
  /\ fst r = Ok tt
  /\ fst r <> Raise MaximumReachedError
  /\ log_lines_of (disk (snd r)) = [entry_at 1; entry_at 2].
Proof.
  vm_compute. repeat split; try reflexivity. discriminate.
Qed.

(** ** C1: the global minimum after a new client joins *)

(** C1, at a failing input.  Client a is set to 5; client b is then looked
    up for the first time, which records it with [None], and is set to 7.
    The lookup makes the current minimum [None] although a's time is
    defined ([min] over the values takes [None] as the smallest), and the
    following [set_client_time] takes the "no minimum yet" branch and stores
    b's 7: the registry now holds a at 5 and b at 7 while
    [get_current_min_time] gives 7, not the minimum 5 of the defined
    times. *)
Theorem min_time_lost_when_client_joins :
  let w0 := mkWorld (dao_with None ∅ [] 0 None) empty_disk 0 in
  let w1 := snd (set_client_time "a" (Some 5) w0) in
  let w2 := snd (get_client_time "b" w1) in
  let w3 := snd (set_client_time "b" (Some 7) w2) in
  fst (get_current_min_time w1) = Ok (Some 5)
  /\ fst (get_client_time "b" w1) = Ok None
  /\ _client_times (dao w2) = {[ "a" := Some 5; "b" := None ]}
  /\ fst (get_current_min_time w2) = Ok None
  /\ _client_times (dao w3) = {[ "a" := Some 5; "b" := Some 7 ]}
  /\ fst (get_current_min_time w3) = Ok (Some 7).
Proof.
  vm_compute. repeat split; reflexivity.
Qed.

(** ** C8: set_client_time and the snapshot files *)

(** C8, on the code.  [set_client_time] (and with it [get_client_time])
    changes the object only: whatever the state, the disk after the call is
    the disk before it, so no snapshot file reflects the new time, against
    the setter's own docstring ("Updates the internal state and saves to
    disk").  For a client set on a fresh registry there is no file under
    [state/] at all. *)
Theorem set_client_time_leaves_disk (w : World) (identifier : string)
    (new_time : pytime) :
  disk (snd (set_client_time identifier new_time w)) = disk w
  /\ disk (snd (get_client_time identifier w)) = disk w
  /\ state_dir (disk (snd (set_client_time "a" (Some 5)
                             (mkWorld (dao_with None ∅ [] 0 None) empty_disk 0))))
     = Some ∅.
Proof.
  assert (Hset : forall i t w0, disk (snd (set_client_time i t w0)) = disk w0).
  { intros i t [d k tk]. unfold set_client_time. unfold_m.
    destruct (_curr_min_time d); simpl; [| reflexivity].
    destruct (py_min _); reflexivity. }
  split; [apply Hset |]. split; [| reflexivity].
  destruct w as [d k tk]. unfold get_client_time. unfold_m.
  destruct (_client_times d !! identifier); simpl; [reflexivity |].
  pose proof (Hset identifier None (mkWorld d k tk)) as H.
  destruct (set_client_time identifier None (mkWorld d k tk)) as [[u|x] w'];
    simpl in *; exact H.
Qed.

(** ** C9: a backup name that is already taken *)

(** C9, on the code.  Whenever the name made from the clock reading exists
    on disk or was already given out in this session,
    [_create_unique_log_file_path] raises [TypeError] (it adds a
    [datetime.timedelta] to the float [time_unix]); no name is returned and
    none is recorded. *)
Theorem unique_path_collision_raises (clock : nat -> Z) (time_str : Z -> string)
    (w : World) :
  let candidate := _create_log_file_name_from_time time_str (clock (ticks w)) in
  lexists candidate (disk w) = true \/ candidate ∈ _unique_log_file_names (dao w) ->
  _create_unique_log_file_path clock time_str w
  = (Raise TypeError, mkWorld (dao w) (disk w) (S (ticks w))).
Proof.
  intros candidate H.
  unfold _create_unique_log_file_path. unfold_m. fold candidate.
  destruct H as [H | H].
  - rewrite H. reflexivity.
  - rewrite (bool_decide_eq_true_2 _ H). rewrite orb_true_r. reflexivity.
Qed.

(** Two backup names asked for within one second: the second call fails. *)
Lemma unique_path_collision_raises_witness :
  let w := mkWorld (dao_with None ∅ [] 0 None) empty_disk 0 in
  let r1 := create_unique_log_file_path ticking second_str w in
  fst r1 = Ok "log/log_until_2017-12-20_18-08-25"
  /\ fst (create_unique_log_file_path ticking second_str (snd r1)) = Raise TypeError.
Proof.
  intros w r1. split; [reflexivity |].
  unfold create_unique_log_file_path.
  rewrite (unique_path_collision_raises ticking second_str (snd r1)).
  - reflexivity.
  - right. vm_compute. apply list_elem_of_here.
Defined.

(** ** The backward scan of cut_log *)

Lemma py_getitem_last {A : Type} (l : list A) (x : A) :
  py_getitem (l ++ [x]) (Z.of_nat (length (l ++ [x])) - 1) = Ok x.
Proof.
  unfold py_getitem. rewrite length_app. simpl.
  replace (Z.of_nat (length l + 1) - 1) with (Z.of_nat (length l)) by lia.
  destruct (Z.of_nat (length l) <? 0) eqn:Hneg; [apply Z.ltb_lt in Hneg; lia |].
  replace ((0 <=? Z.of_nat (length l)) && (Z.of_nat (length l) <? Z.of_nat (length l + 1)))
    with true by (symmetry; apply andb_true_iff; split;
                  [apply Z.leb_le | apply Z.ltb_lt]; lia).
  rewrite Nat2Z.id. rewrite nth_error_app2 by lia.
  rewrite Nat.sub_diag. reflexivity.
Qed.

Lemma py_getitem_empty {A : Type} (i : Z) : py_getitem (@nil A) i = Raise IndexError.
Proof.
  unfold py_getitem.
  destruct (_ && _); [| reflexivity].
  destruct (Z.to_nat _); reflexivity.
Qed.


(** The scan ends within as many rounds as there are lines, plus one. *)
Lemma cut_scan_bound (min_time : pytime) (bound : nat) (log_lines : list LogEntry) :
  (length log_lines < bound)%nat ->
  cut_scan bound log_lines (Z.of_nat (length log_lines) - 1) min_time
  <> Raise LoopBound.
Proof.
  revert log_lines. induction bound as [|bound IH]; intros log_lines Hlen; [lia |].
  destruct log_lines as [|y r].
  - cbn [cut_scan]. rewrite py_getitem_empty. discriminate.
  - destruct (@exists_last _ (y :: r)) as (l' & x & Hlast); [discriminate |].
    rewrite Hlast in *. clear Hlast y r. cbn [cut_scan]. rewrite py_getitem_last.
    destruct (py_le (Some (time_unix x)) min_time); [discriminate |].
    rewrite removelast_last.
    replace (Z.of_nat (length (l' ++ [x])) - 1 - 1) with (Z.of_nat (length l') - 1)
      by (rewrite length_app; simpl; lia).
    apply IH. rewrite length_app in Hlen. simpl in Hlen. lia.
Qed.

(** When every line is newer than the minimum, the scan pops them all and
    then indexes the empty list. *)
Lemma cut_scan_all_newer (min_time : pytime) (bound : nat) (log_lines : list LogEntry) :
  (length log_lines < bound)%nat ->
  Forall (fun e => py_le (Some (time_unix e)) min_time = false) log_lines ->
  cut_scan bound log_lines (Z.of_nat (length log_lines) - 1) min_time
  = Raise IndexError.
Proof.
  revert log_lines. induction bound as [|bound IH]; intros log_lines Hlen Hall; [lia |].
  destruct log_lines as [|y r].
  - cbn [cut_scan]. rewrite py_getitem_empty. reflexivity.
  - destruct (@exists_last _ (y :: r)) as (l' & x & Hlast); [discriminate |].
    rewrite Hlast in *. clear Hlast y r. cbn [cut_scan]. rewrite py_getitem_last.
    apply Forall_app in Hall. destruct Hall as [Hl' Hx].
    inversion Hx as [| ? ? Hxn _]; subst. rewrite Hxn.
    rewrite removelast_last.
    replace (Z.of_nat (length (l' ++ [x])) - 1 - 1) with (Z.of_nat (length l') - 1)
      by (rewrite length_app; simpl; lia).
    apply IH; [| exact Hl'].
    rewrite length_app in Hlen. simpl in Hlen. lia.
Qed.

(** [cut_log] on a flushed writer whose backup name is free: the result is
    that of the scan over a copy of the log. *)
Lemma cut_log_run (clock : nat -> Z) (time_str : Z -> string) (w : World)
    (lines : list LogEntry) :
  log_files (disk w) !! _log_file_path = Some lines ->
  _new_log_entries (dao w) = [] ->
  let name := _create_log_file_name_from_time time_str (clock (ticks w)) in
  lexists name (disk w) = false ->
  name ∉ _unique_log_file_names (dao w) ->
  let d' := set_unique_log_file_names (_unique_log_file_names (dao w) ++ [name]) (dao w) in
  cut_log clock time_str w
  = match cut_scan (S (length lines)) lines (Z.of_nat (length lines) - 1)
            (_curr_min_time (dao w)) with
    | Ok kept =>
        (Ok (Some (Z.of_nat (length lines) - Z.of_nat (length kept),
                   Z.of_nat (length lines), name)),
         mkWorld d'
           (mkDisk (<[name := kept]> (<[name := lines]> (log_files (disk w))))
                   (state_dir (disk w)))
           (S (ticks w)))
    | Raise e =>
        (Raise e,
         mkWorld d'
           (mkDisk (<[name := lines]> (log_files (disk w))) (state_dir (disk w)))
           (S (ticks w)))
    end.
Proof.
  intros Hlog Hq name Hfree Hnew d'.
  destruct w as [d k tk]. cbn [dao disk ticks] in *.
  assert (Hne : name <> _log_file_path).
  { intros Heq. unfold lexists in Hfree. rewrite Heq, Hlog in Hfree.
    apply bool_decide_eq_false in Hfree. apply Hfree. eauto. }
  assert (Hex : lexists _log_file_path k = true).
  { unfold lexists. apply bool_decide_eq_true. rewrite Hlog. eauto. }
  unfold cut_log, create_unique_log_file_path, _create_unique_log_file_path.
  run_m. rewrite Hex. cbn [negb]. run_m. fold name.
  rewrite Hfree, (bool_decide_eq_false_2 _ Hnew).
  cbn [orb]. run_m. fold d'.
  rewrite (flush_log_idle clock (mkWorld d' k (S tk))) by exact Hq.
  unfold copyfile. run_m. rewrite Hlog. run_m.
  rewrite lookup_insert_eq. cbn [default from_option id].
  change (_curr_min_time d') with (_curr_min_time d).
  destruct (cut_scan _ _ _ _) eqn:Hscan.
  - reflexivity.
  - reflexivity.
Qed.

(** ** C4: the cut of a log with times 10, 20, 30, 40 at minimum 25 *)






(** ** C5: the cut of a log whose lines are all newer than the minimum *)

(** C5, on the code.  The live log exists, nothing is queued, the backup
    name is free, and every line's logical time exceeds the current minimum
    time (under Python 2 every time exceeds a minimum of [None], too).  The
    backward scan pops every line and then reads [log_lines[-1]] of the
    empty list: [cut_log] ends with [IndexError].  The backup file was
    copied before the scan and is never rewritten, so it holds the whole
    log, not an empty file. *)
Theorem cut_log_all_newer_raises (clock : nat -> Z) (time_str : Z -> string)
    (w : World) (lines : list LogEntry) :
  log_files (disk w) !! _log_file_path = Some lines ->
  _new_log_entries (dao w) = [] ->
  Forall (fun e => py_le (Some (time_unix e)) (_curr_min_time (dao w)) = false) lines ->
  let name := _create_log_file_name_from_time time_str (clock (ticks w)) in
  lexists name (disk w) = false ->
  name ∉ _unique_log_file_names (dao w) ->
  exists w',
    cut_log clock time_str w = (Raise IndexError, w')
    /\ log_files (disk w') !! name = Some lines.
Proof.
  intros Hlog Hq Hall name Hfree Hnew.
  pose proof (cut_log_run clock time_str w _ Hlog Hq Hfree Hnew) as Hrun.
  fold name in Hrun.
  rewrite (cut_scan_all_newer _ _ _ (Nat.lt_succ_diag_r _) Hall) in Hrun.
  eexists. split; [exact Hrun |].
  cbn [disk log_files]. apply lookup_insert_eq.
Qed.

(** Two lines, at 30 and 40, and a minimum of 25. *)
Lemma cut_log_all_newer_raises_witness :
  let w := mkWorld (dao_with (Some 25) {[ "a" := Some 25 ]} [] 2 None)
             (mkDisk {[ _log_file_path := [entry_at 30; entry_at 40] ]} (Some ∅)) 1 in
  exists w',
    cut_log ticking second_str w = (Raise IndexError, w')
    /\ log_files (disk w') !! "log/log_until_2017-12-20_18-08-25"
       = Some [entry_at 30; entry_at 40].
Proof.
  intros w.
  apply (cut_log_all_newer_raises ticking second_str w [entry_at 30; entry_at 40]);
    try reflexivity.
  - repeat constructor.
  - vm_compute. apply not_elem_of_nil.
Defined.

(** ** C6: the object after reset *)

(** C6, at a failing input.  [_clear_internal_state] keeps
    [_current_total_entries] whatever the state.  So with a cap of 2: a
    system with one line in its log and snapshot files of two clients is
    started, a second entry is appended and flushed, and [reset] runs.  It
    renames the log away, deletes the snapshot files and forgets the
    clients ([get_client_time] gives [None] for a former one), but the
    counter of persisted lines still says 2: the next [append_to_log]
    raises [MaximumReachedError] and writes nothing, where a fresh instance
    started on the same files accepts the entry. *)
Theorem reset_keeps_total_entries :
  (forall w, _current_total_entries (dao (snd (_clear_internal_state w)))
             = _current_total_entries (dao w))
  /\ let k0 := mkDisk {[ _log_file_path := [entry_at 1] ]}
                      (Some {[ "state" := Some 5; "a" := Some 5; "b" := Some 7 ]}) in
     exists w0 w1 w2 w3 msg fresh,
       __init__ ticking None None (Some 2) k0 0 = Ok w0
       /\ __enter__ w0 = (Ok tt, w1)
       /\ append_to_log ticking (entry_at 2) w1 = (Ok tt, w2)
       /\ reset ticking second_str w2 = (Ok msg, w3)
       /\ log_files (disk w3)
          = {[ "log/log_until_2017-12-20_18-08-25" := [entry_at 1; entry_at 2] ]}
       /\ state_dir (disk w3) = Some ∅
       /\ fst (get_client_time "a" w3) = Ok None
       /\ _current_total_entries (dao w3) = 2
       /\ fst (append_to_log ticking (entry_at 3) w3) = Raise MaximumReachedError
       /\ disk (snd (append_to_log ticking (entry_at 3) w3)) = disk w3
       /\ __init__ ticking None None (Some 2) (disk w3) 0 = Ok fresh
       /\ _current_total_entries (dao fresh) = 0
       /\ fst (append_to_log ticking (entry_at 3) fresh) = Ok tt.
Proof.
  split; [intros [d k tk]; reflexivity |].
  intros k0.
  do 6 eexists.
  split; [reflexivity |].
  split; [vm_compute; reflexivity |].
  split; [vm_compute; reflexivity |].
  split; [vm_compute; reflexivity |].
  vm_compute. repeat split; reflexivity.
Qed.

(** ** C7: save and load of the registry *)

Lemma insert_all_union (items : list (string * pytime)) (sd : gmap string pytime) :
  NoDup items.*1 -> insert_all items sd = list_to_map items ∪ sd.
Proof.
  revert sd. induction items as [|[k v] r IH]; intros sd Hnd.
  - simpl. symmetry. apply (left_id_L ∅ (∪)).
  - apply NoDup_cons in Hnd. destruct Hnd as [Hk Hr].
    unfold insert_all in *. simpl. rewrite IH by exact Hr.
    rewrite <- insert_union_l.
    rewrite <- insert_union_r by (apply not_elem_of_list_to_map_1; exact Hk).
    reflexivity.
Qed.

Lemma for_each_write_state (items : list (string * pytime)) (w : World) :
  Forall (fun kv => plain_file_name kv.1 = true) items ->
  for_each items (fun kv => write_state_file kv.1 kv.2) w
  = (Ok tt,
     match items with
     | [] => w
     | _ => mkWorld (dao w)
              (set_state_dir (Some (insert_all items (default ∅ (state_dir (disk w)))))
                             (disk w))
              (ticks w)
     end).
Proof.
  revert w. induction items as [|[k v] r IH]; intros w Hall; [reflexivity |].
  inversion Hall as [| ? ? Hk Hr]; subst. cbn [fst] in Hk.
  cbn [for_each]. unfold bind at 1. unfold write_state_file at 1.
  cbn [fst snd]. rewrite Hk. unfold modify_disk at 1.
  rewrite IH by exact Hr.
  destruct r as [|kv r']; reflexivity.
Qed.

Lemma flush_log_state_dir (clock : nat -> Z) (w : World) :
  state_dir (disk (snd (flush_log clock w))) = state_dir (disk w).
Proof.
  pose proof (flush_log_outcome clock w) as Ho.
  inversion Ho; reflexivity.
Qed.

(** The state directory that [_write_all_to_files] leaves: the registry's
    files over the minimum-time file over what was there. *)
Lemma write_all_state_dir (clock : nat -> Z) (w : World) :
  (forall id, is_Some (_client_times (dao w) !! id) -> plain_file_name id = true) ->
  state_dir (disk (snd (_write_all_to_files clock w)))
  = Some (_client_times (dao w)
          ∪ <[_state_file_name := _curr_min_time (dao w)]>
              (default ∅ (state_dir (disk w)))).
Proof.
  intros Hplain. destruct w as [d k tk]. cbn [dao disk] in *.
  assert (Hitems : Forall (fun kv : string * pytime => plain_file_name kv.1 = true)
                     (map_to_list (_client_times d))).
  { apply Forall_forall. intros [i v] Hin. cbn [fst].
    apply Hplain. exists v. apply elem_of_map_to_list. exact Hin. }
  assert (Hgoal : forall lf sd0,
            state_dir (disk (snd
              (bind (write_state_file _state_file_name (_curr_min_time d))
                 (fun _ => bind (for_each (map_to_list (_client_times d))
                                   (fun kv => write_state_file kv.1 kv.2))
                             (fun _ => flush_log clock))
                 (mkWorld d (mkDisk lf (Some sd0)) tk))))
            = Some (_client_times d ∪ <[_state_file_name := _curr_min_time d]> sd0)).
  { intros lf sd0.
    unfold bind at 1. unfold write_state_file at 1.
    change (plain_file_name _state_file_name) with true.
    unfold modify_disk at 1. cbn [dao disk ticks state_dir set_state_dir log_files
                                  default from_option id].
    unfold bind at 1. rewrite (for_each_write_state _ _ Hitems).
    rewrite flush_log_state_dir.
    destruct (map_to_list (_client_times d)) as [|kv r] eqn:Hl.
    - apply map_to_list_empty_iff in Hl. rewrite Hl.
      cbn [disk state_dir]. rewrite (left_id_L ∅ (∪)). reflexivity.
    - rewrite <- Hl. cbn [dao disk ticks state_dir set_state_dir default from_option id].
      rewrite insert_all_union by apply NoDup_fst_map_to_list.
      rewrite list_to_map_to_list. reflexivity. }
  unfold _write_all_to_files.
  unfold bind at 1. unfold mkdir_state, modify_disk at 1.
  unfold bind at 1. unfold get_dao at 1.
  cbn [dao disk ticks].
  destruct k as [lf [sd0|]]; cbn [state_dir set_state_dir log_files default from_option id];
    apply Hgoal.
Qed.

Lemma for_each_load (sd : gmap string pytime) (files : list string) (w : World) :
  state_dir (disk w) = Some sd ->
  Forall (fun name => is_Some (sd !! name)) files ->
  for_each files _load_state_from_file w
  = (Ok tt, mkWorld (load_all sd files (dao w)) (disk w) (ticks w)).
Proof.
  intros Hdir. revert w Hdir.
  induction files as [|name r IH]; intros [d k tk] Hdir Hall.
  - reflexivity.
  - inversion Hall as [| ? ? [v Hv] Hr]; subst. cbn [disk dao ticks] in *.
    cbn [for_each]. unfold bind at 1. unfold _load_state_from_file at 1.
    run_m. rewrite Hdir. cbn [default from_option id]. rewrite Hv.
    unfold load_all. cbn [fold_left]. unfold load_one at 2. rewrite Hv.
    destruct (String.eqb name _state_file_name); run_m;
      rewrite IH by assumption; reflexivity.
Qed.

Lemma load_all_min_time (sd : gmap string pytime) (m : pytime) (files : list string)
    (d : StateDao) :
  sd !! _state_file_name = Some m ->
  _curr_min_time (load_all sd files d)
  = if decide (_state_file_name ∈ files) then m else _curr_min_time d.
Proof.
  intros Hm. revert d. induction files as [|name r IH]; intros d.
  - reflexivity.
  - unfold load_all in *. cbn [fold_left]. rewrite IH.
    unfold load_one.
    destruct (String.eqb name _state_file_name) eqn:Heq.
    + apply String.eqb_eq in Heq. subst name. rewrite Hm.
      rewrite (decide_True (P := _state_file_name ∈ _state_file_name :: r))
        by apply list_elem_of_here.
      destruct (decide (_state_file_name ∈ r)); reflexivity.
    + apply String.eqb_neq in Heq.
      assert (Hsame : _curr_min_time
                        match sd !! name with
                        | Some v => set_client_times (<[name:=v]> (_client_times d)) d
                        | None => d
                        end = _curr_min_time d)
        by (destruct (sd !! name); reflexivity).
      rewrite Hsame.
      destruct (decide (_state_file_name ∈ r)) as [Hin | Hnin].
      * rewrite decide_True by (apply list_elem_of_further; exact Hin). reflexivity.
      * rewrite decide_False; [reflexivity |].
        intros Hin. apply elem_of_cons in Hin. destruct Hin as [Hin | Hin];
          [congruence | contradiction].
Qed.

Lemma load_all_clients (sd : gmap string pytime) (files : list string)
    (d : StateDao) (id : string) :
  Forall (fun name => is_Some (sd !! name)) files ->
  _client_times (load_all sd files d) !! id
  = if decide (id ∈ files /\ id <> _state_file_name)
    then sd !! id
    else _client_times d !! id.
Proof.
  revert d. induction files as [|name r IH]; intros d Hall.
  - rewrite decide_False; [reflexivity |].
    intros [Hin _]. apply not_elem_of_nil in Hin. exact Hin.
  - inversion Hall as [| ? ? [v Hv] Hr]; subst.
    unfold load_all in *. cbn [fold_left]. rewrite IH by exact Hr.
    unfold load_one. rewrite Hv.
    destruct (decide (id ∈ r /\ id <> _state_file_name)) as [[Hin Hne] | Hnot].
    + rewrite decide_True; [reflexivity |].
      split; [apply list_elem_of_further; exact Hin | exact Hne].
    + destruct (String.eqb name _state_file_name) eqn:Heq.
      * apply String.eqb_eq in Heq. subst name. cbn [_client_times set_curr_min_time].
        rewrite decide_False; [reflexivity |].
        intros [Hin Hne]. apply elem_of_cons in Hin.
        destruct Hin as [Hin | Hin]; [contradiction | apply Hnot; split; assumption].
      * apply String.eqb_neq in Heq. cbn [_client_times set_client_times].
        destruct (decide (id = name)) as [-> | Hid].
        -- rewrite lookup_insert_eq.
           rewrite decide_True by (split; [apply list_elem_of_here | exact Heq]).
           symmetry. exact Hv.
        -- rewrite lookup_insert_ne by (intros ->; contradiction).
           rewrite decide_False; [reflexivity |].
           intros [Hin Hne]. apply elem_of_cons in Hin.
           destruct Hin as [Hin | Hin]; [contradiction | apply Hnot; split; assumption].
Qed.

Lemma elem_of_file_names (sd : gmap string pytime) (name : string) :
  name ∈ (map_to_list sd).*1 <-> is_Some (sd !! name).
Proof.
  rewrite list_elem_of_fmap. split.
  - intros ([i v] & -> & Hin). apply elem_of_map_to_list in Hin. eauto.
  - intros [v Hv]. exists (name, v). split; [reflexivity |].
    apply elem_of_map_to_list. exact Hv.
Qed.

(** [__enter__] of a new object over a state directory [sd] holding the
    minimum-time file. *)
Lemma enter_fresh (sd : gmap string pytime) (m : pytime) (w : World) :
  state_dir (disk w) = Some sd ->
  sd !! _state_file_name = Some m ->
  _client_times (dao w) = ∅ ->
  exists w', __enter__ w = (Ok tt, w')
             /\ _curr_min_time (dao w') = m
             /\ _client_times (dao w') = delete _state_file_name sd.
Proof.
  intros Hdir Hm Hct. destruct w as [d [lf sdo] tk]. cbn [dao disk state_dir] in *.
  subst sdo.
  assert (Hall : Forall (fun name => is_Some (sd !! name)) (map_to_list sd).*1).
  { apply Forall_forall. intros name Hin. apply elem_of_file_names. exact Hin. }
  exists (mkWorld (load_all sd (map_to_list sd).*1 d) (mkDisk lf (Some sd)) tk).
  split; [| split].
  - unfold __enter__, mkdir_state. run_m. cbn [default from_option id].
    apply (for_each_load sd _ (mkWorld d (mkDisk lf (Some sd)) tk) eq_refl Hall).
  - cbn [dao]. rewrite (load_all_min_time sd m) by exact Hm.
    apply decide_True. apply elem_of_file_names. eauto.
  - cbn [dao]. apply map_eq. intros id.
    rewrite load_all_clients by exact Hall. rewrite Hct.
    destruct (decide (id = _state_file_name)) as [-> | Hne].
    + rewrite lookup_delete_eq. rewrite decide_False by (intros [_ H]; congruence).
      apply lookup_empty.
    + rewrite lookup_delete_ne by congruence.
      destruct (decide (id ∈ (map_to_list sd).*1 /\ id <> _state_file_name))
        as [_ | Hnot]; [reflexivity |].
      rewrite lookup_empty. symmetry. apply eq_None_not_Some.
      intros Hsome. apply Hnot. split; [apply elem_of_file_names; exact Hsome | exact Hne].
Qed.

(** C7, as the code has it.  Take a registry none of whose clients is named
    [state] (the name of the minimum-time file), whose client identifiers
    are plain file names, over a state directory that is absent or holds
    files of these clients and the minimum-time file only.  Writing all
    state to files ([__exit__]) and then starting a new object on the same
    files ([__init__], then [__enter__]) gives back the registry: the same
    clients with the same times, defined or not, and the same global
    minimum time. *)
Theorem snapshot_round_trip (clock clock' : nat -> Z) (ff mis met : option Z)
    (tk : nat) (w w2 : World) :
  (forall id, is_Some (_client_times (dao w) !! id) ->
              plain_file_name id = true /\ id <> _state_file_name) ->
  (forall name, is_Some (default ∅ (state_dir (disk w)) !! name) ->
                name = _state_file_name \/ is_Some (_client_times (dao w) !! name)) ->
  __init__ clock' ff mis met (disk (snd (__exit__ clock w))) tk = Ok w2 ->
  exists w3, __enter__ w2 = (Ok tt, w3)
             /\ _curr_min_time (dao w3) = _curr_min_time (dao w)
             /\ _client_times (dao w3) = _client_times (dao w).
Proof.
  intros Hids Hfiles Hinit.
  set (ct := _client_times (dao w)) in *.
  set (m := _curr_min_time (dao w)) in *.
  set (sd0 := default ∅ (state_dir (disk w))) in *.
  assert (Hnone : ct !! _state_file_name = None).
  { apply eq_None_not_Some. intros Hs. destruct (Hids _ Hs) as [_ Hne]. congruence. }
  assert (Hsd : state_dir (disk (snd (__exit__ clock w)))
                = Some (<[_state_file_name := m]> ct)).
  { unfold __exit__. rewrite write_all_state_dir by (intros id Hs; apply Hids, Hs).
    fold ct m sd0. f_equal. apply map_eq. intros id.
    rewrite lookup_union.
    destruct (decide (id = _state_file_name)) as [-> | Hne].
    - rewrite Hnone, !lookup_insert_eq. reflexivity.
    - rewrite !lookup_insert_ne by congruence.
      destruct (ct !! id) as [v|] eqn:Hv.
      + destruct (sd0 !! id); reflexivity.
      + destruct (sd0 !! id) as [v0|] eqn:Hv0; [| reflexivity].
        destruct (Hfiles id) as [Heq | [v Hs]];
          [rewrite Hv0; eauto | congruence | congruence]. }
  unfold __init__ in Hinit.
  destruct (existsb _ _); [discriminate |].
  inversion Hinit as [Hw2]; clear Hinit.
  match goal with
  | |- exists w3, __enter__ ?fresh = _ /\ _ =>
      destruct (enter_fresh (<[_state_file_name := m]> ct) m fresh)
        as (w3 & Hrun & Hmin & Hcl)
  end.
  - cbn [disk]. exact Hsd.
  - apply lookup_insert_eq.
  - reflexivity.
  - exists w3. split; [exact Hrun |]. split; [exact Hmin |].
    rewrite Hcl. rewrite delete_insert_eq. apply delete_id. exact Hnone.
Qed.

(** Two clients, one of them not yet time-stamped, over a directory that
    does not exist yet. *)
Lemma snapshot_round_trip_witness :
  let ct : gmap string pytime := {[ "a" := Some 5; "b" := None ]} in
  let w := mkWorld (dao_with None ct [] 0 None) (mkDisk ∅ None) 1 in
  exists w2 w3,
    __init__ ticking None None None (disk (snd (__exit__ ticking w))) 0 = Ok w2
    /\ __enter__ w2 = (Ok tt, w3)
    /\ _curr_min_time (dao w3) = None
    /\ _client_times (dao w3) = ct.
Proof.
  intros ct w.
  destruct (snapshot_round_trip ticking ticking None None None 0 w
              (mkWorld (mkStateDao None ∅ [] [] None None false 1000 0 None false)
                       (disk (snd (__exit__ ticking w))) 1))
    as (w3 & Hrun & Hmin & Hcl).
  - intros id [v Hv]. unfold w, ct in Hv. cbn [dao dao_with _client_times] in Hv.
    apply lookup_insert_Some in Hv. destruct Hv as [[<- _] | [_ Hv]].
    + split; [reflexivity | discriminate].
    + apply lookup_singleton_Some in Hv. destruct Hv as [<- _].
      split; [reflexivity | discriminate].
  - intros name [v Hv]. cbn in Hv. rewrite lookup_empty in Hv. discriminate.
  - reflexivity.
  - eexists. exists w3. split; [reflexivity |].
    split; [exact Hrun |]. split; [exact Hmin | exact Hcl].
Defined.

(** A client named [state]: its file is the minimum-time file.  The save
    writes the minimum 5 and then the client's 7 to it; the load reads 7 as
    the minimum and finds no client of that name. *)
Lemma snapshot_round_trip_counterexample :
  let ct : gmap string pytime := {[ "a" := Some 5; "state" := Some 7 ]} in
  let w := mkWorld (dao_with (Some 5) ct [] 0 None) (mkDisk ∅ (Some ∅)) 1 in
  exists w2 w3,
    __init__ ticking None None None (disk (snd (__exit__ ticking w))) 0 = Ok w2
    /\ __enter__ w2 = (Ok tt, w3)
    /\ _curr_min_time (dao w3) = Some 7
    /\ _curr_min_time (dao w3) <> _curr_min_time (dao w)
    /\ _client_times (dao w3) = {[ "a" := Some 5 ]}
    /\ _client_times (dao w3) <> _client_times (dao w).
Proof.
  intros ct w. do 2 eexists.
  split; [reflexivity |].
  split; [vm_compute; reflexivity |].
  split; [reflexivity |].
  split; [vm_compute; discriminate |].
  split; [vm_compute; reflexivity |].
  intros H. apply (f_equal (fun m : gmap string pytime => m !! "state")) in H.
  vm_compute in H. discriminate.
Qed.

(** * Further properties of the writer *)

(** What [append_to_log] comes to: the entry is enqueued, the clock is read
    at most once, and then the queue is either left alone or flushed. *)
Lemma append_to_log_cases (clock : nat -> Z) (e : LogEntry) (w : World) :
  exists tk',
    (tk' = ticks w \/ tk' = S (ticks w))
    /\ (append_to_log clock e w = (Ok tt, mkWorld (enqueued e (dao w)) (disk w) tk')
        \/ append_to_log clock e w
           = flush_log clock (mkWorld (enqueued e (dao w)) (disk w) tk')).
Proof.
  destruct w as [d k tk]. cbn [dao disk ticks].
  unfold append_to_log. run_m. fold (enqueued e d).
  destruct (_maximum_reached true (enqueued e d)); [eauto |].
  change (_auto_flush (enqueued e d)) with (_auto_flush d).
  destruct (_auto_flush d); cbn [negb]; [| unfold ret; eauto].
  change (_max_entries_in_state (enqueued e d)) with (_max_entries_in_state d).
  change (_flush_frequency (enqueued e d)) with (_flush_frequency d).
  change (_last_flush (enqueued e d)) with (_last_flush d).
  destruct (match _max_entries_in_state d with
            | Some m => m <=? queued (enqueued e d)
            | None => false
            end); run_m; [eauto |].
  destruct (_flush_frequency d) as [f|]; run_m; [| eauto].
  destruct (_last_flush d + f <=? clock tk); eauto.
Qed.

Lemma flush_log_keeps_entries (clock : nat -> Z) (w : World) :
  log_lines_of (disk (snd (flush_log clock w)))
  ++ _new_log_entries (dao (snd (flush_log clock w)))
  = log_lines_of (disk w) ++ _new_log_entries (dao w).
Proof.
  pose proof (flush_log_outcome clock w) as Ho.
  inversion Ho as [Hq | Hq Hm | Hq Hm Hz | Hq Hm Hz]; cbn [snd dao disk]; try reflexivity.
  rewrite log_lines_of_append_lines. cbn. apply app_nil_r.
Qed.

Lemma append_to_log_keeps_entries (clock : nat -> Z) (e : LogEntry) (w : World) :
  log_lines_of (disk (snd (append_to_log clock e w)))
  ++ _new_log_entries (dao (snd (append_to_log clock e w)))
  = log_lines_of (disk w) ++ _new_log_entries (dao w) ++ [e].
Proof.
  destruct (append_to_log_cases clock e w) as (tk' & _ & [H | H]); rewrite H.
  - reflexivity.
  - rewrite flush_log_keeps_entries. reflexivity.
Qed.

Lemma run_ops_arrival_order (clock : nat -> Z) (ops : list op) (w : World) :
  log_lines_of (disk (run_ops clock ops w))
  ++ _new_log_entries (dao (run_ops clock ops w))
  = log_lines_of (disk w) ++ _new_log_entries (dao w) ++ appended ops.
Proof.
  revert w. induction ops as [|o ops IH]; intros w.
  - cbn. rewrite app_nil_r. reflexivity.
  - cbn [run_ops fold_left]. fold (run_ops clock ops (run_op clock o w)).
    rewrite IH. destruct o as [e|]; cbn [run_op appended flat_map].
    + rewrite (app_assoc (log_lines_of _)), append_to_log_keeps_entries.
      rewrite <- !app_assoc. reflexivity.
    + rewrite (app_assoc (log_lines_of _)), flush_log_keeps_entries.
      rewrite <- !app_assoc. reflexivity.
Qed.

(** X1.  Whatever the configuration and the clock, a run of appends and
    flushes loses and reorders nothing: the lines of the log file followed
    by the queue are the lines and the queue of the start followed by the
    appended entries, in arrival order.  This holds across refused flushes
    and failed ones, whose exception the caller caught. *)
Theorem run_ops_keeps_arrival_order (clock : nat -> Z) (ops : list op) (w : World) :
  log_lines_of (disk (run_ops clock ops w))
  ++ _new_log_entries (dao (run_ops clock ops w))
  = log_lines_of (disk w) ++ _new_log_entries (dao w) ++ appended ops.
Proof. apply run_ops_arrival_order. Qed.

Lemma count_log_lines_value (w : World) :
  count_log_lines w = (Ok (queued (dao w) + persisted_count (disk w)), w).
Proof.
  unfold count_log_lines, persisted_count. run_m.
  destruct (log_files (disk w) !! _log_file_path); cbn; [reflexivity |].
  rewrite Z.add_0_r. reflexivity.
Qed.

(** X2.  [count_log_lines] returns the number of lines in the log file
    plus the number of queued entries and changes nothing; so over any run
    of appends and flushes it grows by exactly the number of entries
    appended, be they written, still queued or refused at the cap. *)
Theorem count_log_lines_counts_appends (clock : nat -> Z) (ops : list op) (w : World) :
  count_log_lines w = (Ok (persisted_count (disk w) + queued (dao w)), w)
  /\ count_log_lines (run_ops clock ops w)
     = (Ok (persisted_count (disk w) + queued (dao w) + Z.of_nat (length (appended ops))),
        run_ops clock ops w).
Proof.
  rewrite !count_log_lines_value. split; [f_equal; f_equal; lia |].
  f_equal. f_equal.
  pose proof (f_equal (@length LogEntry) (run_ops_arrival_order clock ops w)) as H.
  rewrite !length_app in H. unfold queued, persisted_count.
  fold (log_lines_of (disk (run_ops clock ops w))). fold (log_lines_of (disk w)).
  lia.
Qed.

(** The object with a longer queue, all else the same. *)
Lemma enqueued_app (es : list LogEntry) (e : LogEntry) (d : StateDao) :
  enqueued e (set_new_log_entries (_new_log_entries d ++ es) d)
  = set_new_log_entries (_new_log_entries d ++ es ++ [e]) d.
Proof. unfold enqueued. cbn. rewrite <- app_assoc. reflexivity. Qed.

Lemma run_ops_app (clock : nat -> Z) (ops1 ops2 : list op) (w : World) :
  run_ops clock (ops1 ++ ops2) w = run_ops clock ops2 (run_ops clock ops1 w).
Proof. unfold run_ops. apply fold_left_app. Qed.

Lemma append_to_log_no_policy (clock : nat -> Z) (e : LogEntry) (w : World) :
  _max_entries_total (dao w) = None ->
  _auto_flush (dao w) = false ->
  append_to_log clock e w = (Ok tt, mkWorld (enqueued e (dao w)) (disk w) (ticks w)).
Proof.
  destruct w as [[m ct q un ff mis af lf c mt tm] k tk]. cbn [dao disk ticks].
  cbn [_max_entries_total _auto_flush]. intros -> ->. reflexivity.
Qed.

(** X3.  With no cap and no flush policy configured, [append_to_log] only
    enqueues: however many entries are appended, the files stay as they
    are, the clock is not read, and the queue holds the entries in order
    until someone calls [flush_log]. *)
Theorem appends_without_policy_only_enqueue (clock : nat -> Z)
    (es : list LogEntry) (w : World) :
  _max_entries_total (dao w) = None ->
  _auto_flush (dao w) = false ->
  run_ops clock (map Append es) w
  = mkWorld (set_new_log_entries (_new_log_entries (dao w) ++ es) (dao w))
            (disk w) (ticks w).
Proof.
  intros Hmax Hauto. induction es as [|e es IH] using rev_ind.
  - cbn. rewrite app_nil_r. destruct w as [[] k tk]; reflexivity.
  - rewrite map_app, run_ops_app, IH. cbn [map run_ops fold_left run_op].
    rewrite append_to_log_no_policy by assumption.
    cbn [snd dao disk ticks]. rewrite enqueued_app. reflexivity.
Qed.

Lemma appends_without_policy_only_enqueue_witness :
  let w := mkWorld (dao_with None ∅ [] 0 None) empty_disk 1 in
  run_ops ticking (map Append [entry_at 1; entry_at 2; entry_at 3]) w
  = mkWorld (dao_with None ∅ [entry_at 1; entry_at 2; entry_at 3] 0 None) empty_disk 1.
Proof.
  intros w.
  exact (appends_without_policy_only_enqueue ticking
           [entry_at 1; entry_at 2; entry_at 3] w eq_refl eq_refl).
Defined.

Lemma append_to_log_below_threshold (clock : nat -> Z) (e : LogEntry) (w : World)
    (m : Z) :
  _max_entries_total (dao w) = None ->
  _flush_frequency (dao w) = None ->
  _max_entries_in_state (dao w) = Some m ->
  queued (dao w) + 1 < m ->
  append_to_log clock e w = (Ok tt, mkWorld (enqueued e (dao w)) (disk w) (ticks w)).
Proof.
  destruct w as [[mt ct q un ff mis af lf c mx tm] k tk]. cbn [dao disk ticks].
  unfold queued. cbn [_max_entries_total _flush_frequency _max_entries_in_state
                      _new_log_entries].
  intros -> -> -> Hlt.
  unfold append_to_log. run_m. unfold _maximum_reached, enqueued, queued.
  cbn [_max_entries_total _auto_flush _max_entries_in_state _flush_frequency
       _new_log_entries set_new_log_entries].
  rewrite length_app. cbn [length].
  replace (m <=? Z.of_nat (length q + 1)) with false
    by (symmetry; apply Z.leb_gt; lia).
  destruct af; reflexivity.
Qed.

Lemma append_to_log_at_threshold (clock : nat -> Z) (e : LogEntry) (w : World)
    (m : Z) :
  _max_entries_total (dao w) = None ->
  _auto_flush (dao w) = true ->
  _max_entries_in_state (dao w) = Some m ->
  m <= queued (dao w) + 1 ->
  append_to_log clock e w
  = flush_log clock (mkWorld (enqueued e (dao w)) (disk w) (ticks w)).
Proof.
  destruct w as [[mt ct q un ff mis af lf c mx tm] k tk]. cbn [dao disk ticks].
  unfold queued. cbn [_max_entries_total _auto_flush _max_entries_in_state
                      _new_log_entries].
  intros -> -> -> Hle.
  unfold append_to_log. run_m. unfold _maximum_reached, enqueued, queued.
  cbn [_max_entries_total _auto_flush _max_entries_in_state _flush_frequency
       _new_log_entries set_new_log_entries negb].
  rewrite length_app. cbn [length].
  replace (m <=? Z.of_nat (length q + 1)) with true
    by (symmetry; apply Z.leb_le; lia).
  reflexivity.
Qed.

(** X4.  With [max_entries_in_state = m] as the only policy (no cap, no
    flush frequency): while the queue stays below [m] the appends write
    nothing and do not read the clock; the append that brings the queue to
    [m] flushes all of it, in order, empties the queue, adds [m] to the
    counter and takes the clock reading as the time of the last flush. *)
Theorem auto_flush_at_max_entries_in_state (clock : nat -> Z) (m : Z)
    (es : list LogEntry) (e : LogEntry) (w : World) :
  _max_entries_total (dao w) = None ->
  _flush_frequency (dao w) = None ->
  _auto_flush (dao w) = true ->
  _max_entries_in_state (dao w) = Some m ->
  _new_log_entries (dao w) = [] ->
  Z.of_nat (length es) + 1 = m ->
  clock (flush_tick w) <> _last_flush (dao w) ->
  let w1 := run_ops clock (map Append es) w in
  w1 = mkWorld (set_new_log_entries es (dao w)) (disk w) (ticks w)
  /\ append_to_log clock e w1
     = (Ok tt,
        mkWorld (set_last_flush (clock (flush_tick w))
                   (set_new_log_entries []
                      (set_current_total_entries
                         (_current_total_entries (dao w) + m) (dao w))))
                (append_lines _log_file_path (es ++ [e]) (disk w))
                (S (flush_tick w))).
Proof.
  intros Hmax Hff Hauto Hmis Hq Hlen Hclock w1.
  assert (Hrun : forall es', Z.of_nat (length es') + 1 <= m ->
            run_ops clock (map Append es') w
            = mkWorld (set_new_log_entries es' (dao w)) (disk w) (ticks w)).
  { induction es' as [|e' es' IH] using rev_ind; intros Hes'.
    - cbn. rewrite <- Hq. destruct w as [[] k tk]; reflexivity.
    - rewrite length_app in Hes'. cbn [length] in Hes'.
      rewrite map_app, run_ops_app, IH by lia. cbn [map run_ops fold_left run_op].
      rewrite (append_to_log_below_threshold clock e' _ m); try assumption.
      + reflexivity.
      + unfold queued. cbn [dao _new_log_entries set_new_log_entries]. lia. }
  assert (Hw1 : w1 = mkWorld (set_new_log_entries es (dao w)) (disk w) (ticks w))
    by (apply Hrun; lia).
  split; [exact Hw1 |]. rewrite Hw1.
  rewrite (append_to_log_at_threshold clock e _ m); try assumption;
    [| unfold queued; cbn [dao _new_log_entries set_new_log_entries]; lia].
  cbn [dao disk ticks].
  set (w2 := mkWorld (enqueued e (set_new_log_entries es (dao w))) (disk w) (ticks w)).
  pose proof (flush_log_outcome clock w2) as Ho.
  assert (Hne : _new_log_entries (dao w2) <> []) by (cbn; destruct es; discriminate).
  assert (Hm : _maximum_reached false (dao w2) = false).
  { unfold _maximum_reached. cbn. rewrite Hmax. reflexivity. }
  assert (Htick : flush_tick w2 = flush_tick w) by reflexivity.
  assert (Hlast : _last_flush (dao w2) = _last_flush (dao w)) by reflexivity.
  inversion Ho as [Hq' | Hq' Hm' | Hq' Hm' Hz | Hq' Hm' Hz]; try congruence.
  rewrite Htick. unfold flushed_dao, queued.
  cbn [dao disk w2 enqueued _new_log_entries set_new_log_entries
       _current_total_entries].
  rewrite length_app. cbn [length].
  replace (Z.of_nat (length es + 1)) with m by lia.
  destruct w as [[] k tk]. reflexivity.
Qed.

(** A threshold of 3 over an empty queue: two appends wait, the third
    flushes. *)
Lemma auto_flush_at_max_entries_in_state_witness :
  let w := mkWorld (mkStateDao None ∅ [] [] None (Some 3) true 0 0 None false)
                   empty_disk 1 in
  let w1 := run_ops ticking (map Append [entry_at 1; entry_at 2]) w in
  log_lines_of (disk w1) = []
  /\ log_lines_of (disk (snd (append_to_log ticking (entry_at 3) w1)))
     = [entry_at 1; entry_at 2; entry_at 3].
Proof.
  intros w w1.
  destruct (auto_flush_at_max_entries_in_state ticking 3 [entry_at 1; entry_at 2]
              (entry_at 3) w eq_refl eq_refl eq_refl eq_refl eq_refl eq_refl)
    as [H1 H2].
  - vm_compute. discriminate.
  - fold w1 in H1, H2. split; [rewrite H1; reflexivity |].
    rewrite H2. reflexivity.
Defined.

(** X5.  With [flush_frequency = f] as the only policy (no cap, no
    threshold on the queue), [append_to_log] reads the clock once after
    enqueueing.  Before [f] has passed since the last flush the entry only
    waits in the queue and the files stay as they are; once [f] has passed
    the whole queue is flushed in order (the flush reads the clock again,
    and that reading must differ from the time of the last flush). *)
Theorem auto_flush_at_flush_frequency (clock : nat -> Z) (f : Z) (e : LogEntry)
    (w : World) :
  _max_entries_total (dao w) = None ->
  _max_entries_in_state (dao w) = None ->
  _auto_flush (dao w) = true ->
  _flush_frequency (dao w) = Some f ->
  let w1 := mkWorld (enqueued e (dao w)) (disk w) (S (ticks w)) in
  (clock (ticks w) < _last_flush (dao w) + f ->
   append_to_log clock e w = (Ok tt, w1))
  /\ (_last_flush (dao w) + f <= clock (ticks w) ->
      clock (flush_tick w1) <> _last_flush (dao w) ->
      exists w', append_to_log clock e w = (Ok tt, w')
                 /\ log_lines_of (disk w')
                    = log_lines_of (disk w) ++ _new_log_entries (dao w) ++ [e]
                 /\ _new_log_entries (dao w') = []
                 /\ _last_flush (dao w') = clock (flush_tick w1)).
Proof.
  intros Hmax Hmis Hauto Hff w1.
  assert (Happ : append_to_log clock e w
                 = if _last_flush (dao w) + f <=? clock (ticks w)
                   then flush_log clock w1 else (Ok tt, w1)).
  { subst w1. destruct w as [[mt ct q un ff mis af lf c mx tm] k tk].
    cbn [dao disk ticks _max_entries_total _max_entries_in_state _auto_flush
         _flush_frequency _last_flush] in *. subst.
    unfold append_to_log. run_m. unfold _maximum_reached, enqueued.
    cbn [_max_entries_total _auto_flush _max_entries_in_state _flush_frequency
         _last_flush set_new_log_entries negb]. run_m.
    destruct (lf + f <=? clock tk); reflexivity. }
  split.
  - intros Hlt. rewrite Happ.
    replace (_last_flush (dao w) + f <=? clock (ticks w)) with false
      by (symmetry; apply Z.leb_gt; lia).
    reflexivity.
  - intros Hle Hclock. rewrite Happ.
    replace (_last_flush (dao w) + f <=? clock (ticks w)) with true
      by (symmetry; apply Z.leb_le; lia).
    pose proof (flush_log_outcome clock w1) as Ho.
    assert (Hne : _new_log_entries (dao w1) <> [])
      by (cbn; destruct (_new_log_entries (dao w)); discriminate).
    assert (Hm : _maximum_reached false (dao w1) = false).
    { unfold _maximum_reached. cbn. rewrite Hmax. reflexivity. }
    assert (Hlast : _last_flush (dao w1) = _last_flush (dao w)) by reflexivity.
    inversion Ho as [Hq' | Hq' Hm' | Hq' Hm' Hz | Hq' Hm' Hz]; try congruence.
    eexists. split; [reflexivity |].
    cbn [dao disk]. rewrite log_lines_of_append_lines.
    split; [reflexivity |]. split; reflexivity.
Qed.

(** A frequency of 5 units, last flush at 1000: a reading of 1001 waits, a
    reading of 1006 flushes. *)
Lemma auto_flush_at_flush_frequency_witness :
  let d := mkStateDao None ∅ [entry_at 1] [] (Some 5) None true 1000 0 None false in
  append_to_log ticking (entry_at 2) (mkWorld d empty_disk 1)
  = (Ok tt, mkWorld (enqueued (entry_at 2) d) empty_disk 2)
  /\ log_lines_of (disk (snd (append_to_log ticking (entry_at 2) (mkWorld d empty_disk 6))))
     = [entry_at 1; entry_at 2].
Proof.
  intros d. split.
  - destruct (auto_flush_at_flush_frequency ticking 5 (entry_at 2)
                (mkWorld d empty_disk 1) eq_refl eq_refl eq_refl eq_refl) as [H _].
    apply H. vm_compute. reflexivity.
  - destruct (auto_flush_at_flush_frequency ticking 5 (entry_at 2)
                (mkWorld d empty_disk 6) eq_refl eq_refl eq_refl eq_refl) as [_ H].
    destruct H as (w' & Hrun & Hlines & _).
    + vm_compute. discriminate.
    + vm_compute. discriminate.
    + rewrite Hrun. exact Hlines.
Defined.

(** ** The counter and the cap *)

Lemma flush_log_counter (clock : nat -> Z) (w : World) :
  persisted_count (disk w) <= _current_total_entries (dao w) ->
  persisted_count (disk (snd (flush_log clock w)))
  <= _current_total_entries (dao (snd (flush_log clock w))).
Proof.
  intros H. pose proof (flush_log_outcome clock w) as Ho.
  inversion Ho as [Hq | Hq Hm | Hq Hm Hz | Hq Hm Hz]; cbn [snd dao disk]; try exact H.
  - cbn. unfold queued. lia.
  - rewrite persisted_count_append_lines. cbn. unfold queued. lia.
Qed.

(** X6.  From the constructor on, over any run of appends and flushes and
    under any configuration, [_current_total_entries] is never below the
    number of lines in the log file: the capacity check of [flush_log]
    cannot miss lines that are on disk. *)
Theorem counter_covers_file (clock : nat -> Z) (ff mis met : option Z) (k : Disk)
    (tk : nat) (w : World) (ops : list op) :
  __init__ clock ff mis met k tk = Ok w ->
  persisted_count (disk w) = _current_total_entries (dao w)
  /\ persisted_count (disk (run_ops clock ops w))
     <= _current_total_entries (dao (run_ops clock ops w)).
Proof.
  intros Hinit. unfold __init__ in Hinit.
  destruct (existsb _ _); [discriminate |].
  inversion Hinit as [Hw]; clear Hinit.
  set (w0 := mkWorld _ k (S tk)).
  assert (H0 : persisted_count (disk w0) = _current_total_entries (dao w0)).
  { cbn [w0 dao disk _current_total_entries].
    unfold persisted_count, initial_log_line_count.
    destruct (log_files k !! _log_file_path); reflexivity. }
  split; [exact H0 |].
  assert (Hle : persisted_count (disk w0) <= _current_total_entries (dao w0)) by lia.
  clear H0 Hw. clearbody w0. revert w0 Hle.
  induction ops as [|o ops IH]; intros w1 Hle; [exact Hle |].
  cbn [run_ops fold_left]. apply IH. destruct o as [e|]; cbn [run_op].
  - destruct (append_to_log_cases clock e w1) as (tk' & _ & [H | H]); rewrite H.
    + exact Hle.
    + apply flush_log_counter. exact Hle.
  - apply flush_log_counter. exact Hle.
Qed.

Lemma counter_covers_file_witness :
  exists w,
    __init__ ticking None (Some 2) None
      (mkDisk {[ _log_file_path := [entry_at 1] ]} (Some ∅)) 0 = Ok w
    /\ persisted_count
         (disk (run_ops ticking [Append (entry_at 2); Append (entry_at 3); Flush] w))
       <= _current_total_entries
            (dao (run_ops ticking [Append (entry_at 2); Append (entry_at 3); Flush] w)).
Proof.
  eexists. split; [reflexivity |].
  exact (proj2 (counter_covers_file ticking None (Some 2) None
                  (mkDisk {[ _log_file_path := [entry_at 1] ]} (Some ∅)) 0 _
                  [Append (entry_at 2); Append (entry_at 3); Flush] eq_refl)).
Defined.

Lemma flush_log_at_cap (clock : nat -> Z) (N : Z) (w : World) :
  _max_entries_total (dao w) = Some N ->
  N <= _current_total_entries (dao w) ->
  dao (snd (flush_log clock w)) = dao w /\ disk (snd (flush_log clock w)) = disk w.
Proof.
  intros Hmax Hcap. pose proof (flush_log_outcome clock w) as Ho.
  assert (Hm : _maximum_reached false (dao w) = true).
  { rewrite (maximum_reached_persisted N) by exact Hmax. apply Z.leb_le. exact Hcap. }
  inversion Ho as [Hq | Hq Hm' | Hq Hm' Hz | Hq Hm' Hz]; try congruence;
    split; reflexivity.
Qed.

Lemma append_to_log_at_full_cap (clock : nat -> Z) (N : Z) (e : LogEntry) (w : World) :
  _max_entries_total (dao w) = Some N ->
  N <= _current_total_entries (dao w) ->
  exists tk', append_to_log clock e w
              = (Raise MaximumReachedError, mkWorld (enqueued e (dao w)) (disk w) tk').
Proof.
  intros Hmax Hcap. destruct w as [d k tk]. cbn [dao disk ticks] in *.
  set (w1 := mkWorld (enqueued e d) k tk).
  assert (Hincl : _maximum_reached true (enqueued e d) = true).
  { rewrite (maximum_reached_inclusive N) by exact Hmax. apply Z.leb_le.
    cbn [_current_total_entries enqueued set_new_log_entries]. unfold queued. lia. }
  assert (Happ : append_to_log clock e (mkWorld d k tk) = flush_log clock w1).
  { unfold append_to_log. run_m. fold (enqueued e d). rewrite Hincl. reflexivity. }
  rewrite Happ. pose proof (flush_log_outcome clock w1) as Ho.
  assert (Hne : _new_log_entries (dao w1) <> [])
    by (cbn; destruct (_new_log_entries d); discriminate).
  assert (Hm : _maximum_reached false (dao w1) = true).
  { rewrite (maximum_reached_persisted N) by exact Hmax. apply Z.leb_le. exact Hcap. }
  inversion Ho as [Hq | Hq Hm' | Hq Hm' Hz | Hq Hm' Hz]; try congruence.
  eexists. reflexivity.
Qed.

(** X7.  Once the counter of persisted lines has reached
    [max_entries_total], the writer is closed for good: over any further
    run of appends and flushes no file changes and the counter stays, the
    queue only grows by the appended entries, and every [append_to_log]
    raises [MaximumReachedError], leaving its entry at the end of the queue
    and the files as they are. *)
Theorem writer_closed_at_cap (clock : nat -> Z) (N : Z) (ops : list op) (w : World) :
  _max_entries_total (dao w) = Some N ->
  N <= _current_total_entries (dao w) ->
  let w' := run_ops clock ops w in
  disk w' = disk w
  /\ _current_total_entries (dao w') = _current_total_entries (dao w)
  /\ _new_log_entries (dao w') = _new_log_entries (dao w) ++ appended ops
  /\ forall e, exists tk',
       append_to_log clock e w'
       = (Raise MaximumReachedError, mkWorld (enqueued e (dao w')) (disk w') tk').
Proof.
  intros Hmax Hcap w'. subst w'.
  assert (Hinv : _max_entries_total (dao (run_ops clock ops w)) = Some N
                 /\ _current_total_entries (dao (run_ops clock ops w))
                    = _current_total_entries (dao w)
                 /\ disk (run_ops clock ops w) = disk w).
  { revert w Hmax Hcap. induction ops as [|o ops IH]; intros w Hmax Hcap.
    - cbn. auto.
    - cbn [run_ops fold_left]. fold (run_ops clock ops (run_op clock o w)).
      assert (Hstep : _max_entries_total (dao (run_op clock o w)) = Some N
                      /\ _current_total_entries (dao (run_op clock o w))
                         = _current_total_entries (dao w)
                      /\ disk (run_op clock o w) = disk w).
      { destruct o as [e|]; cbn [run_op].
        - destruct (append_to_log_at_full_cap clock N e w Hmax Hcap) as [tk' H].
          rewrite H. cbn. auto.
        - destruct (flush_log_at_cap clock N w Hmax Hcap) as [Hd Hk].
          rewrite Hd, Hk. auto. }
      destruct Hstep as (H1 & H2 & H3).
      destruct (IH (run_op clock o w) H1) as (H4 & H5 & H6); [lia |].
      rewrite H4, H5, H6. auto. }
  destruct Hinv as (H1 & H2 & H3). split; [exact H3 |]. split; [exact H2 |].
  split.
  - pose proof (run_ops_arrival_order clock ops w) as Hkeep.
    unfold log_lines_of in Hkeep. rewrite H3 in Hkeep.
    apply app_inv_head in Hkeep. exact Hkeep.
  - intros e. apply (append_to_log_at_full_cap clock N); [exact H1 | lia].
Qed.

Lemma writer_closed_at_cap_witness :
  let k := mkDisk {[ _log_file_path := [entry_at 1; entry_at 2] ]} (Some ∅) in
  let w := mkWorld (dao_with None ∅ [] 2 (Some 2)) k 1 in
  disk (run_ops ticking [Append (entry_at 3); Flush; Append (entry_at 4)] w) = k.
Proof.
  intros k w.
  destruct (writer_closed_at_cap ticking 2
              [Append (entry_at 3); Flush; Append (entry_at 4)] w eq_refl) as [H _].
  - vm_compute. discriminate.
  - exact H.
Defined.

(** ** What the cut keeps *)

Lemma cut_scan_result (min_time : pytime) (bound : nat) (log_lines : list LogEntry) :
  (length log_lines < bound)%nat ->
  (cut_scan bound log_lines (Z.of_nat (length log_lines) - 1) min_time = Raise IndexError
   /\ Forall (fun e => py_le (Some (time_unix e)) min_time = false) log_lines)
  \/ (exists kept last removed,
        cut_scan bound log_lines (Z.of_nat (length log_lines) - 1) min_time
        = Ok (kept ++ [last])
        /\ log_lines = kept ++ [last] ++ removed
        /\ py_le (Some (time_unix last)) min_time = true
        /\ Forall (fun e => py_le (Some (time_unix e)) min_time = false) removed).
Proof.
  revert log_lines. induction bound as [|bound IH]; intros log_lines Hlen; [lia |].
  destruct log_lines as [|y r].
  - left. split; [| constructor].
    cbn [cut_scan]. rewrite py_getitem_empty. reflexivity.
  - destruct (@exists_last _ (y :: r)) as (l' & x & Hlast); [discriminate |].
    rewrite Hlast in *. clear Hlast y r. cbn [cut_scan]. rewrite py_getitem_last.
    destruct (py_le (Some (time_unix x)) min_time) eqn:Hx.
    + right. exists l', x, []. rewrite app_nil_r. auto.
    + rewrite removelast_last.
      replace (Z.of_nat (length (l' ++ [x])) - 1 - 1) with (Z.of_nat (length l') - 1)
        by (rewrite length_app; simpl; lia).
      rewrite length_app in Hlen. cbn [length] in Hlen.
      destruct (IH l') as [[Hr Hall] | (kept & last & removed & Hr & Hl & Hle & Hall)];
        [lia | |].
      * left. split; [exact Hr |]. apply Forall_app. split; [exact Hall |].
        constructor; [exact Hx | constructor].
      * right. exists kept, last, (removed ++ [x]).
        split; [exact Hr |]. split; [| split; [exact Hle |]].
        -- rewrite Hl. rewrite <- !app_assoc. reflexivity.
        -- apply Forall_app. split; [exact Hall |].
           constructor; [exact Hx | constructor].
Qed.

(** X8.  [cut_log] on a flushed writer whose log exists and whose backup
    name is free.  The live log is left as it is.  The scan removes the
    longest run of trailing lines that are all newer than the current
    minimum time: the backup holds the log up to and including the last
    line whose time is at or below the minimum, and the call returns the
    number of lines removed, the length of the log and the backup's path.
    Lines before that last line are kept whatever their time.  When no
    line is at or below the minimum the call ends with [IndexError]. *)
Theorem cut_log_keeps_prefix (clock : nat -> Z) (time_str : Z -> string)
    (w : World) (lines : list LogEntry) :
  log_files (disk w) !! _log_file_path = Some lines ->
  _new_log_entries (dao w) = [] ->
  let name := _create_log_file_name_from_time time_str (clock (ticks w)) in
  lexists name (disk w) = false ->
  name ∉ _unique_log_file_names (dao w) ->
  let newer e := py_le (Some (time_unix e)) (_curr_min_time (dao w)) = false in
  exists w',
    log_files (disk w') !! _log_file_path = Some lines
    /\ ((cut_log clock time_str w = (Raise IndexError, w') /\ Forall newer lines)
        \/ (exists kept last removed,
              cut_log clock time_str w
              = (Ok (Some (Z.of_nat (length removed), Z.of_nat (length lines), name)), w')
              /\ lines = kept ++ [last] ++ removed
              /\ py_le (Some (time_unix last)) (_curr_min_time (dao w)) = true
              /\ Forall newer removed
              /\ log_files (disk w') !! name = Some (kept ++ [last]))).
Proof.
  intros Hlog Hq name Hfree Hnew newer.
  assert (Hne : name <> _log_file_path).
  { intros Heq. unfold lexists in Hfree. rewrite Heq, Hlog in Hfree.
    apply bool_decide_eq_false in Hfree. apply Hfree. eauto. }
  pose proof (cut_log_run clock time_str w _ Hlog Hq Hfree Hnew) as Hrun.
  fold name in Hrun.
  destruct (cut_scan_result (_curr_min_time (dao w)) (S (length lines)) lines
              (Nat.lt_succ_diag_r _))
    as [[Hr Hall] | (kept & last & removed & Hr & Hl & Hle & Hall)];
    rewrite Hr in Hrun.
  - eexists. split; [| left; split; [exact Hrun | exact Hall]].
    cbn [disk log_files]. rewrite lookup_insert_ne by exact Hne. exact Hlog.
  - eexists. split.
    2: { right. exists kept, last, removed.
         split; [| split; [exact Hl | split; [exact Hle | split; [exact Hall |]]]].
         - rewrite Hrun. repeat f_equal.
           rewrite Hl at 1. repeat rewrite length_app. cbn [length]. lia.
         - cbn [disk log_files]. apply lookup_insert_eq. }
    cbn [disk log_files]. rewrite !lookup_insert_ne by exact Hne. exact Hlog.
Qed.

(** An older line after a newer one: the scan stops at the line at 20,
    and the line at 30 before it stays in the backup. *)
Lemma cut_log_keeps_prefix_witness :
  let lines := [entry_at 10; entry_at 30; entry_at 20; entry_at 40] in
  let w := mkWorld (dao_with (Some 25) {[ "a" := Some 25 ]} [] 4 None)
             (mkDisk {[ _log_file_path := lines ]} (Some ∅)) 1 in
  exists w',
    fst (cut_log ticking second_str w)
    = Ok (Some (1, 4, "log/log_until_2017-12-20_18-08-25"))
    /\ log_files (disk w') !! _log_file_path = Some lines.
Proof.
  intros lines w.
  destruct (cut_log_keeps_prefix ticking second_str w lines eq_refl eq_refl eq_refl)
    as (w' & Hlive & _).
  - vm_compute. apply not_elem_of_nil.
  - exists w'. split; [reflexivity | exact Hlive].
Defined.

(** X9.  While no minimum time is known ([_curr_min_time] is [None], as
    after the constructor or a reset), [cut_log] on an existing log, a
    flushed writer and a backup name that is free (not on disk, not given
    out in this session) ends with [IndexError]: no time is at or below
    [None], so the scan pops every line.  The full copy is left behind
    under the backup name. *)
Theorem cut_log_without_min_raises (clock : nat -> Z) (time_str : Z -> string)
    (w : World) (lines : list LogEntry) :
  _curr_min_time (dao w) = None ->
  log_files (disk w) !! _log_file_path = Some lines ->
  _new_log_entries (dao w) = [] ->
  let name := _create_log_file_name_from_time time_str (clock (ticks w)) in
  lexists name (disk w) = false ->
  name ∉ _unique_log_file_names (dao w) ->
  exists w',
    cut_log clock time_str w = (Raise IndexError, w')
    /\ log_files (disk w') !! name = Some lines.
Proof.
  intros Hmin Hlog Hq name Hfree Hnew.
  pose proof (cut_log_run clock time_str w _ Hlog Hq Hfree Hnew) as Hrun.
  fold name in Hrun.
  rewrite (cut_scan_all_newer _ _ _ (Nat.lt_succ_diag_r _)) in Hrun.
  - eexists. split; [exact Hrun |]. cbn [disk log_files]. apply lookup_insert_eq.
  - rewrite Hmin. apply Forall_forall. intros e _. reflexivity.
Qed.

Lemma cut_log_without_min_raises_witness :
  let w := mkWorld (dao_with None ∅ [] 1 None)
             (mkDisk {[ _log_file_path := [entry_at 10] ]} (Some ∅)) 1 in
  fst (cut_log ticking second_str w) = Raise IndexError.
Proof.
  intros w.
  destruct (cut_log_without_min_raises ticking second_str w [entry_at 10]
              eq_refl eq_refl eq_refl eq_refl) as (w' & Hrun & _).
  - vm_compute. apply not_elem_of_nil.
  - rewrite Hrun. reflexivity.
Defined.

(** ** The registry of client times *)

Lemma py_le_refl (a : pytime) : py_le a a = true.
Proof. destruct a; cbn; [apply Z.leb_refl | reflexivity]. Qed.

Lemma py_le_trans (a b c : pytime) :
  py_le a b = true -> py_le b c = true -> py_le a c = true.
Proof.
  destruct a, b, c; cbn; try congruence; intros H1 H2.
  apply Z.leb_le in H1, H2. apply Z.leb_le. lia.
Qed.

Lemma py_le_total (a b : pytime) : py_le a b = true \/ py_le b a = true.
Proof.
  destruct a as [x|], b as [y|]; cbn; auto.
  destruct (Z.leb_spec x y); [auto |]. right. apply Z.leb_le. lia.
Qed.

Lemma fold_py_min2_least (r : list pytime) (x : pytime) :
  fold_left py_min2 r x ∈ x :: r
  /\ forall v, v ∈ x :: r -> py_le (fold_left py_min2 r x) v = true.
Proof.
  revert x. induction r as [|y r IH]; intros x.
  - cbn. split; [apply list_elem_of_here |].
    intros v Hv. apply list_elem_of_singleton in Hv. subst. apply py_le_refl.
  - cbn [fold_left]. destruct (IH (py_min2 x y)) as [Hin Hle].
    assert (Hxy : py_min2 x y ∈ [x; y]
                  /\ py_le (py_min2 x y) x = true /\ py_le (py_min2 x y) y = true).
    { unfold py_min2, py_lt. destruct (py_le x y) eqn:Hc; cbn.
      - split; [apply list_elem_of_here |]. split; [apply py_le_refl | exact Hc].
      - split; [apply list_elem_of_further, list_elem_of_here |].
        split; [| apply py_le_refl].
        destruct (py_le_total x y); congruence. }
    destruct Hxy as (Hmem & Hx & Hy). split.
    + apply elem_of_cons in Hin. destruct Hin as [-> | Hin].
      * apply elem_of_cons in Hmem. destruct Hmem as [-> | Hmem];
          [apply list_elem_of_here |].
        apply list_elem_of_singleton in Hmem. rewrite Hmem.
        apply list_elem_of_further, list_elem_of_here.
      * do 2 apply list_elem_of_further. exact Hin.
    + intros v Hv. apply elem_of_cons in Hv. destruct Hv as [-> | Hv].
      * eapply py_le_trans; [apply Hle, list_elem_of_here | exact Hx].
      * apply elem_of_cons in Hv. destruct Hv as [-> | Hv].
        -- eapply py_le_trans; [apply Hle, list_elem_of_here | exact Hy].
        -- apply Hle. apply list_elem_of_further. exact Hv.
Qed.

Lemma elem_of_values (clients : gmap string pytime) (v : pytime) :
  v ∈ (map_to_list clients).*2 <-> exists id, clients !! id = Some v.
Proof.
  rewrite list_elem_of_fmap. split.
  - intros ([i v'] & -> & Hin). apply elem_of_map_to_list in Hin. eauto.
  - intros [id Hv]. exists (id, v). split; [reflexivity |].
    apply elem_of_map_to_list. exact Hv.
Qed.

Lemma py_min_registry (clients : gmap string pytime) (id : string) (t : pytime) :
  clients !! id = Some t ->
  py_min (map_to_list clients).*2 = Ok (registry_min clients)
  /\ (exists id', clients !! id' = Some (registry_min clients))
  /\ (forall id' v, clients !! id' = Some v -> py_le (registry_min clients) v = true).
Proof.
  intros Hid. unfold registry_min.
  destruct ((map_to_list clients).*2) as [|x r] eqn:Hl.
  - assert (Hin : t ∈ (map_to_list clients).*2) by (apply elem_of_values; eauto).
    rewrite Hl in Hin. apply not_elem_of_nil in Hin. contradiction.
  - cbn [py_min]. destruct (fold_py_min2_least r x) as [Hin Hle].
    split; [reflexivity |]. split.
    + apply elem_of_values. rewrite Hl. exact Hin.
    + intros id' v Hv. apply Hle. rewrite <- Hl. apply elem_of_values. eauto.
Qed.

(** What [set_client_time] leaves: it never raises. *)
Lemma set_client_time_run (identifier : string) (new_time : pytime) (w : World) :
  let clients := <[identifier := new_time]> (_client_times (dao w)) in
  set_client_time identifier new_time w
  = (Ok tt,
     mkWorld (set_curr_min_time
                match _curr_min_time (dao w) with
                | None => new_time
                | Some _ => registry_min clients
                end
                (set_client_times clients (dao w)))
             (disk w) (ticks w)).
Proof.
  intros clients. destruct w as [[m ct q un ff mis af lf c mx tm] k tk].
  cbn [dao disk ticks _client_times _curr_min_time] in *.
  unfold set_client_time. run_m.
  cbn [_curr_min_time _client_times set_client_times]. fold clients.
  destruct m; [| reflexivity].
  destruct (py_min_registry clients identifier new_time) as [Hmin _].
  { apply lookup_insert_eq. }
  run_m. rewrite Hmin. reflexivity.
Qed.

Lemma get_client_time_known (identifier : string) (t : pytime) (w : World) :
  _client_times (dao w) !! identifier = Some t ->
  get_client_time identifier w = (Ok t, w).
Proof.
  intros H. unfold get_client_time. run_m. unfold pytime in *. rewrite H. reflexivity.
Qed.

Lemma get_client_time_unseen (identifier : string) (w : World) :
  _client_times (dao w) !! identifier = None ->
  get_client_time identifier w
  = (Ok None,
     mkWorld (set_curr_min_time
                match _curr_min_time (dao w) with
                | None => None
                | Some _ => registry_min (<[identifier := None]> (_client_times (dao w)))
                end
                (set_client_times (<[identifier := None]> (_client_times (dao w))) (dao w)))
             (disk w) (ticks w)).
Proof.
  intros H. unfold get_client_time. run_m. unfold pytime in *. rewrite H.
  rewrite set_client_time_run. reflexivity.
Qed.

(** X10.  [set_client_time] never raises and stores the time under the
    identifier, leaving every other client as it was; [get_client_time] of
    that identifier then returns the stored time and changes nothing. *)
Theorem set_then_get_client_time (identifier : string) (new_time : pytime)
    (w : World) :
  exists w',
    set_client_time identifier new_time w = (Ok tt, w')
    /\ get_client_time identifier w' = (Ok new_time, w')
    /\ (forall other, other <> identifier ->
          _client_times (dao w') !! other = _client_times (dao w) !! other)
    /\ disk w' = disk w /\ ticks w' = ticks w.
Proof.
  eexists. split; [apply set_client_time_run |].
  split; [| split; [| split; reflexivity]].
  - unfold get_client_time. run_m.
    cbn [_client_times set_curr_min_time set_client_times].
    rewrite lookup_insert_eq. reflexivity.
  - intros other Hne. cbn [dao _client_times set_curr_min_time set_client_times].
    apply lookup_insert_ne. congruence.
Qed.

(** X11.  When a minimum is already known, [set_client_time] stores as the
    new minimum a least value of the registry in Python 2's order, where
    [None] is below every number: it is the time of some client, and it is
    at or below the time of every client.  So with all clients
    time-stamped it is their smallest time, and with one client still at
    [None] it is [None]. *)
Theorem set_client_time_min_is_least (identifier : string) (new_time : pytime)
    (w : World) (old_min : Z) :
  _curr_min_time (dao w) = Some old_min ->
  let w' := snd (set_client_time identifier new_time w) in
  (exists id, _client_times (dao w') !! id = Some (_curr_min_time (dao w')))
  /\ (forall id v, _client_times (dao w') !! id = Some v ->
        py_le (_curr_min_time (dao w')) v = true)
  /\ ((exists id, _client_times (dao w') !! id = Some None) ->
      _curr_min_time (dao w') = None).
Proof.
  intros Hmin w'. subst w'. rewrite set_client_time_run. rewrite Hmin.
  cbn [snd dao _client_times _curr_min_time set_curr_min_time set_client_times].
  destruct (py_min_registry (<[identifier := new_time]> (_client_times (dao w)))
              identifier new_time) as (_ & Hex & Hle).
  { apply lookup_insert_eq. }
  split; [exact Hex |]. split; [exact Hle |].
  intros [id Hid]. specialize (Hle id None Hid).
  destruct (registry_min _); [discriminate | reflexivity].
Qed.

Lemma set_client_time_min_is_least_witness :
  let w := mkWorld (dao_with (Some 5) {[ "a" := Some 5; "b" := Some 9 ]} [] 0 None)
                   empty_disk 1 in
  let w' := snd (set_client_time "a" (Some 12) w) in
  py_le (_curr_min_time (dao w')) (Some 9) = true
  /\ py_le (_curr_min_time (dao w')) (Some 12) = true.
Proof.
  intros w w'.
  pose proof (proj1 (proj2 (set_client_time_min_is_least "a" (Some 12) w 5 eq_refl)))
    as Hle.
  split; [apply (Hle "b") | apply (Hle "a")]; vm_compute; reflexivity.
Defined.

(** ** The caller that advances a client's clock (web_api.py) *)

Lemma time_choice_cases (c jump : Z) (pick : nat) :
  let t := nth (pick mod 20) (repeat c 19 ++ [c + jump]) c in
  ((pick mod 20 < 19)%nat -> t = c) /\ ((pick mod 20 = 19)%nat -> t = c + jump).
Proof.
  intros t. subst t.
  assert (Hlt : (pick mod 20 < 20)%nat) by (apply Nat.mod_upper_bound; discriminate).
  set (i := (pick mod 20)%nat) in *. clearbody i.
  do 20 (destruct i as [|i]; [cbn; split; [reflexivity || lia | intros; (lia || reflexivity)] |]).
  lia.
Qed.

(** X12.  [_create_client_time] for a client the registry does not know:
    the clock reading is returned and stored as the client's time, and it
    becomes the current minimum time whatever the times of the other
    clients are, even when one of them is earlier. *)
Theorem create_client_time_new_client (clock : nat -> Z) (identifier : string)
    (jump : Z) (pick : nat) (w : World) :
  _client_times (dao w) !! identifier = None ->
  exists w',
    _create_client_time clock identifier jump pick w = (Ok (clock (ticks w)), w')
    /\ _client_times (dao w')
       = <[identifier := Some (clock (ticks w))]> (_client_times (dao w))
    /\ _curr_min_time (dao w') = Some (clock (ticks w))
    /\ disk w' = disk w.
Proof.
  intros Hnew.
  assert (Hnone : match _curr_min_time (dao w) with
                  | None => None
                  | Some _ => registry_min (<[identifier := None]> (_client_times (dao w)))
                  end = None).
  { destruct (_curr_min_time (dao w)); [| reflexivity].
    destruct (py_min_registry (<[identifier := None]> (_client_times (dao w)))
                identifier None) as (_ & _ & Hle); [apply lookup_insert_eq |].
    specialize (Hle identifier None (lookup_insert_eq _ _ _)).
    destruct (registry_min _); [discriminate | reflexivity]. }
  unfold _create_client_time. unfold bind at 1.
  rewrite (get_client_time_unseen _ _ Hnew), Hnone. run_m.
  rewrite set_client_time_run.
  cbn [dao disk ticks _curr_min_time _client_times set_curr_min_time set_client_times].
  eexists. split; [reflexivity |].
  cbn [dao disk _curr_min_time _client_times set_curr_min_time set_client_times].
  rewrite insert_insert_eq. auto.
Qed.

(** Client a is at 5, the clock reads 1001 when b joins: the minimum
    becomes 1001. *)
Lemma create_client_time_new_client_witness :
  let w := mkWorld (dao_with (Some 5) {[ "a" := Some 5 ]} [] 0 None) empty_disk 1 in
  exists w',
    _create_client_time ticking "b" 3600 0 w = (Ok 1001, w')
    /\ _curr_min_time (dao w') = Some 1001.
Proof.
  intros w.
  destruct (create_client_time_new_client ticking "b" 3600 0 w eq_refl)
    as (w' & Hrun & _ & Hmin & _).
  exists w'. split; [exact Hrun | exact Hmin].
Defined.

(** X13.  [_create_client_time] for a client with a time [c]: the call
    never raises; it returns and stores either [c] again (nineteen of the
    twenty picks) or [c] plus the drawn jump (the twentieth), so with a
    jump that is not negative, as [random.randint(3600, 57600)] gives, a
    client's time never moves backwards. *)
Theorem create_client_time_never_backwards (clock : nat -> Z) (identifier : string)
    (jump : Z) (pick : nat) (c : Z) (w : World) :
  _client_times (dao w) !! identifier = Some (Some c) ->
  0 <= jump ->
  exists t w',
    _create_client_time clock identifier jump pick w = (Ok t, w')
    /\ _client_times (dao w') !! identifier = Some (Some t)
    /\ c <= t
    /\ ((pick mod 20 < 19)%nat -> t = c)
    /\ ((pick mod 20 = 19)%nat -> t = c + jump).
Proof.
  intros Hc Hjump.
  destruct (time_choice_cases c jump pick) as [Hsame Hjumped].
  set (t := nth (pick mod 20) (repeat c 19 ++ [c + jump]) c) in *.
  unfold _create_client_time. unfold bind at 1.
  rewrite (get_client_time_known _ _ _ Hc). run_m.
  fold t. rewrite set_client_time_run.
  exists t. eexists. split; [reflexivity |].
  cbn [dao _client_times set_curr_min_time set_client_times].
  split; [apply lookup_insert_eq |].
  split; [| split; assumption].
  assert (Hlt : (pick mod 20 < 20)%nat) by (apply Nat.mod_upper_bound; discriminate).
  destruct (Nat.eq_dec (pick mod 20)%nat 19%nat) as [H19 | H19].
  - rewrite (Hjumped H19). lia.
  - rewrite Hsame by lia. lia.
Qed.

Lemma create_client_time_never_backwards_witness :
  let w := mkWorld (dao_with (Some 5) {[ "a" := Some 5 ]} [] 0 None) empty_disk 1 in
  exists t w',
    _create_client_time ticking "a" 3600 19 w = (Ok t, w')
    /\ t = 3605.
Proof.
  intros w.
  destruct (create_client_time_never_backwards ticking "a" 3600 19 5 w eq_refl)
    as (t & w' & Hrun & _ & _ & _ & H19); [lia |].
  exists t, w'. split; [exact Hrun |]. apply H19. reflexivity.
Defined.

(** ** Backup names *)

Lemma create_unique_ok (clock : nat -> Z) (time_str : Z -> string) (w w' : World)
    (name : string) :
  _create_unique_log_file_path clock time_str w = (Ok name, w') ->
  name = _create_log_file_name_from_time time_str (clock (ticks w))
  /\ lexists name (disk w) = false
  /\ (name ∉ _unique_log_file_names (dao w))
  /\ w' = mkWorld (set_unique_log_file_names (_unique_log_file_names (dao w) ++ [name])
                     (dao w))
                  (disk w) (S (ticks w)).
Proof.
  unfold _create_unique_log_file_path. run_m.
  set (n := _create_log_file_name_from_time time_str (clock (ticks w))).
  destruct (lexists n (disk w)) eqn:Hex; cbn [orb]; [discriminate |].
  destruct (bool_decide (n ∈ _unique_log_file_names (dao w))) eqn:Hin;
    [discriminate |].
  intros H. inversion H; subst. apply bool_decide_eq_false in Hin. auto.
Qed.

Lemma run_ops_keeps_names (clock : nat -> Z) (ops : list op) (w : World) :
  _unique_log_file_names (dao (run_ops clock ops w)) = _unique_log_file_names (dao w).
Proof.
  assert (Hflush : forall w0, _unique_log_file_names (dao (snd (flush_log clock w0)))
                              = _unique_log_file_names (dao w0)).
  { intros w0. pose proof (flush_log_outcome clock w0) as Ho.
    inversion Ho; reflexivity. }
  revert w. induction ops as [|o ops IH]; intros w; [reflexivity |].
  cbn [run_ops fold_left]. fold (run_ops clock ops (run_op clock o w)). rewrite IH.
  destruct o as [e|]; cbn [run_op]; [| apply Hflush].
  destruct (append_to_log_cases clock e w) as (tk' & _ & [H | H]); rewrite H.
  - reflexivity.
  - rewrite Hflush. reflexivity.
Qed.

(** ** The constructor *)

(** X15.  The constructor succeeds exactly when the process has no
    instance yet and every value that is set is positive, and raises
    [ValueError] otherwise, leaving the process as it was.  On success the
    new object is recorded as the instance of the process; it has an empty
    registry and queue and no minimum, counts the lines of the log file as
    persisted, leaves the files as they are, and flushes automatically
    exactly when a flush frequency or a queue threshold is set. *)
Theorem init_accepts_positive_settings (clock : nat -> Z) (ff mis met : option Z)
    (p : Process) :
  let positive := forall v, ff = Some v \/ mis = Some v \/ met = Some v -> 0 < v in
  (_INSTANCE p = None /\ positive ->
   exists d, StateDao_new clock ff mis met p
             = (Ok tt, mkProcess (Some d) (process_disk p) (S (process_ticks p)))
             /\ _client_times d = ∅ /\ _curr_min_time d = None
             /\ _new_log_entries d = []
             /\ _current_total_entries d = persisted_count (process_disk p)
             /\ (_auto_flush d = true <-> is_Some ff \/ is_Some mis))
  /\ (~ (_INSTANCE p = None /\ positive) ->
      StateDao_new clock ff mis met p = (Raise ValueError, p)).
Proof.
  intros positive.
  assert (Hbad : existsb (fun x => x <=? 0) (omap id [ff; mis; met]) = false
                 <-> positive).
  { unfold positive. split.
    - intros H v Hv.
      destruct ff as [a|], mis as [b|], met as [c|]; cbn in H;
        repeat (apply orb_false_iff in H; destruct H as [? H]);
        repeat match goal with Hx : (_ <=? 0) = false |- _ => apply Z.leb_gt in Hx end;
        destruct Hv as [Hv | [Hv | Hv]]; inversion Hv; subst; lia.
    - intros H.
      destruct ff as [a|], mis as [b|], met as [c|]; cbn;
        repeat (apply orb_false_iff; split); try reflexivity;
        apply Z.leb_gt; apply H; auto. }
  unfold StateDao_new, __init__. split.
  - intros [Hnone Hpos]. apply Hbad in Hpos. rewrite Hnone, Hpos.
    eexists. split; [reflexivity |].
    cbn [_client_times _curr_min_time _new_log_entries _current_total_entries
         _auto_flush].
    repeat split; try reflexivity.
    + unfold initial_log_line_count, persisted_count.
      destruct (log_files (process_disk p) !! _log_file_path); reflexivity.
    + intros H. apply orb_true_iff in H.
      destruct H as [H | H]; apply bool_decide_eq_true in H; auto.
    + intros [H | H]; apply orb_true_iff; [left | right];
        apply bool_decide_eq_true; exact H.
  - intros Hneg. destruct (_INSTANCE p) as [d|]; [reflexivity |].
    destruct (existsb _ _) eqn:He; [reflexivity |].
    exfalso. apply Hneg. split; [reflexivity | apply Hbad; reflexivity].
Qed.

(** ** The state files *)

Lemma delete_all_lookup (names : list string) (sd : gmap string pytime) (n : string) :
  delete_all names sd !! n = if decide (n ∈ names) then None else sd !! n.
Proof.
  revert sd. induction names as [|x r IH]; intros sd.
  - rewrite decide_False by apply not_elem_of_nil. reflexivity.
  - unfold delete_all in *. cbn [fold_left]. rewrite IH.
    destruct (decide (n ∈ r)) as [Hin | Hnin].
    + rewrite decide_True by (apply list_elem_of_further; exact Hin). reflexivity.
    + destruct (decide (n = x)) as [-> | Hne].
      * rewrite decide_True by apply list_elem_of_here. apply lookup_delete_eq.
      * rewrite decide_False.
        -- apply lookup_delete_ne. congruence.
        -- intros Hin. apply elem_of_cons in Hin. destruct Hin; contradiction.
Qed.

Lemma delete_plain_file (name : string) (d : StateDao)
    (lf : gmap string (list LogEntry)) (sd : gmap string pytime) (tk : nat) :
  plain_file_name name = true ->
  _delete_file_if_existing name (mkWorld d (mkDisk lf (Some sd)) tk)
  = (Ok tt, mkWorld d (mkDisk lf (Some (delete name sd))) tk).
Proof. intros H. unfold _delete_file_if_existing. rewrite H. reflexivity. Qed.

Lemma for_each_delete (names : list string) (d : StateDao) (lf : gmap string (list LogEntry))
    (sd : gmap string pytime) (tk : nat) :
  Forall (fun name => plain_file_name name = true) names ->
  for_each names (fun client_file => _delete_file_if_existing client_file)
    (mkWorld d (mkDisk lf (Some sd)) tk)
  = (Ok tt, mkWorld d (mkDisk lf (Some (delete_all names sd))) tk).
Proof.
  revert sd. induction names as [|x r IH]; intros sd Hall; [reflexivity |].
  inversion Hall as [| ? ? Hx Hr]; subst.
  cbn [for_each]. unfold bind at 1. rewrite delete_plain_file by exact Hx.
  rewrite IH by exact Hr. reflexivity.
Qed.

Lemma client_file_paths_plain (d : StateDao) :
  (forall id, is_Some (_client_times d !! id) -> plain_file_name id = true) ->
  Forall (fun name => plain_file_name name = true) (_get_client_file_paths d).
Proof.
  intros Hplain. apply Forall_forall. intros name Hin.
  apply Hplain. apply elem_of_file_names. exact Hin.
Qed.

Lemma delete_state_files_run (d : StateDao) (lf : gmap string (list LogEntry))
    (sd : gmap string pytime) (tk : nat) :
  (forall id, is_Some (_client_times d !! id) -> plain_file_name id = true) ->
  _delete_state_files (mkWorld d (mkDisk lf (Some sd)) tk)
  = (Ok "Cleared successfully",
     mkWorld d (mkDisk lf (Some (delete_all (_get_client_file_paths d)
                                   (delete _state_file_name sd)))) tk).
Proof.
  intros Hplain. unfold _delete_state_files. run_m.
  rewrite delete_plain_file by reflexivity.
  rewrite for_each_delete by (apply client_file_paths_plain; exact Hplain).
  reflexivity.
Qed.

(** X16.  [_delete_state_files]: without a state directory it reports
    "Folder doesn't exist" and changes nothing.  With one, and a registry
    whose client identifiers are plain file names, it removes the
    minimum-time file and the file of every client in the registry, reports
    "Cleared successfully", and leaves every other file of the directory,
    the log files and the object as they were. *)
Theorem delete_state_files_removes_registry_files (w : World) :
  (state_dir (disk w) = None ->
   _delete_state_files w = (Ok "Folder doesn't exist", w))
  /\ (forall sd, state_dir (disk w) = Some sd ->
      (forall id, is_Some (_client_times (dao w) !! id) -> plain_file_name id = true) ->
      exists w' sd',
        _delete_state_files w = (Ok "Cleared successfully", w')
        /\ state_dir (disk w') = Some sd'
        /\ (forall n, n = _state_file_name \/ is_Some (_client_times (dao w) !! n) ->
                      sd' !! n = None)
        /\ (forall n, n <> _state_file_name -> _client_times (dao w) !! n = None ->
                      sd' !! n = sd !! n)
        /\ log_files (disk w') = log_files (disk w)
        /\ dao w' = dao w).
Proof.
  destruct w as [d [lf sdo] tk]. cbn [dao disk state_dir log_files].
  split.
  - intros ->. reflexivity.
  - intros sd -> Hplain. do 2 eexists.
    split; [apply delete_state_files_run; exact Hplain |].
    cbn [dao disk state_dir log_files]. split; [reflexivity |].
    split; [| split; [| split; reflexivity]].
    + intros n Hn. rewrite delete_all_lookup.
      destruct (decide (n ∈ _get_client_file_paths d)) as [Hin | Hnin];
        [reflexivity |].
      destruct Hn as [-> | Hn]; [apply lookup_delete_eq |].
      exfalso. apply Hnin. unfold _get_client_file_paths.
      apply elem_of_file_names. exact Hn.
    + intros n Hne Hnone. rewrite delete_all_lookup.
      rewrite decide_False.
      * apply lookup_delete_ne. congruence.
      * unfold _get_client_file_paths. rewrite elem_of_file_names, Hnone.
        intros [v Hv]. discriminate.
Qed.

Lemma delete_state_files_removes_registry_files_witness :
  let w := mkWorld (dao_with (Some 5) {[ "a" := Some 5 ]} [] 0 None)
             (mkDisk ∅ (Some {[ "a" := Some 5; "old" := Some 1; "state" := Some 5 ]})) 1 in
  exists w', _delete_state_files w = (Ok "Cleared successfully", w')
             /\ state_dir (disk w') = Some {[ "old" := Some 1 ]}.
Proof.
  intros w.
  destruct (delete_state_files_removes_registry_files w) as [_ H].
  destruct (H _ eq_refl) as (w' & sd' & Hrun & Hsd & _).
  - intros id [v Hv]. cbn in Hv. apply lookup_singleton_Some in Hv.
    destruct Hv as [<- _]. reflexivity.
  - exists w'. split; [exact Hrun |].
    assert (Hw' : w' = snd (_delete_state_files w)) by (rewrite Hrun; reflexivity).
    rewrite Hw'. vm_compute. reflexivity.
Defined.

Lemma load_all_min_time_any (sd : gmap string pytime) (files : list string)
    (d : StateDao) :
  _curr_min_time (load_all sd files d)
  = if decide (_state_file_name ∈ files)
    then default (_curr_min_time d) (sd !! _state_file_name)
    else _curr_min_time d.
Proof.
  destruct (sd !! _state_file_name) as [m|] eqn:Hm.
  - rewrite (load_all_min_time sd m) by exact Hm. reflexivity.
  - cbn [default from_option id].
    assert (H : _curr_min_time (load_all sd files d) = _curr_min_time d).
    { revert d. induction files as [|name r IH]; intros d; [reflexivity |].
      unfold load_all in *. cbn [fold_left]. rewrite IH. unfold load_one.
      destruct (sd !! name) as [v|] eqn:Hv; [| reflexivity].
      destruct (String.eqb name _state_file_name) eqn:Heq; [| reflexivity].
      apply String.eqb_eq in Heq. subst name. congruence. }
    rewrite H. destruct (decide _); reflexivity.
Qed.

(** Loading touches the registry only. *)
Lemma load_all_other_fields (sd : gmap string pytime) (files : list string)
    (d : StateDao) :
  _new_log_entries (load_all sd files d) = _new_log_entries d
  /\ _unique_log_file_names (load_all sd files d) = _unique_log_file_names d
  /\ _current_total_entries (load_all sd files d) = _current_total_entries d
  /\ _max_entries_total (load_all sd files d) = _max_entries_total d
  /\ _timing_mode (load_all sd files d) = _timing_mode d
  /\ _last_flush (load_all sd files d) = _last_flush d.
Proof.
  revert d. induction files as [|name r IH]; intros d; [repeat split |].
  unfold load_all in *. cbn [fold_left].
  destruct (IH (load_one sd d name)) as (H1 & H2 & H3 & H4 & H5 & H6).
  rewrite H1, H2, H3, H4, H5, H6. unfold load_one.
  destruct (sd !! name); [| repeat split].
  destruct (String.eqb name _state_file_name); repeat split.
Qed.

Lemma enter_run (d : StateDao) (lf : gmap string (list LogEntry))
    (sd : gmap string pytime) (tk : nat) :
  __enter__ (mkWorld d (mkDisk lf (Some sd)) tk)
  = (Ok tt, mkWorld (load_all sd (map_to_list sd).*1 d) (mkDisk lf (Some sd)) tk).
Proof.
  unfold __enter__, mkdir_state. run_m. cbn [default from_option id].
  apply (for_each_load sd _ (mkWorld d (mkDisk lf (Some sd)) tk) eq_refl).
  apply Forall_forall. intros name Hin. apply elem_of_file_names. exact Hin.
Qed.

(** X17.  [__enter__] over a state directory whose files each hold one
    JSON time or null never fails.  If the directory is missing it is
    created empty and the object is left as it is.  Otherwise every file of the directory is loaded: the file named
    [state] gives the current minimum time, every other file gives the time
    of the client of that name, replacing what the object held for it;
    clients without a file, the queue and the files themselves are left as
    they were. *)
Theorem enter_loads_every_file (w : World) :
  (state_dir (disk w) = None ->
   __enter__ w
   = (Ok tt, mkWorld (dao w) (mkDisk (log_files (disk w)) (Some ∅)) (ticks w)))
  /\ (forall sd, state_dir (disk w) = Some sd ->
      exists w',
        __enter__ w = (Ok tt, w')
        /\ disk w' = disk w /\ ticks w' = ticks w
        /\ _curr_min_time (dao w')
           = default (_curr_min_time (dao w)) (sd !! _state_file_name)
        /\ (forall id, id <> _state_file_name ->
              _client_times (dao w') !! id
              = match sd !! id with
                | Some v => Some v
                | None => _client_times (dao w) !! id
                end)
        /\ _client_times (dao w') !! _state_file_name
           = _client_times (dao w) !! _state_file_name
        /\ _new_log_entries (dao w') = _new_log_entries (dao w)).
Proof.
  destruct w as [d [lf sdo] tk]. cbn [dao disk ticks state_dir log_files]. split.
  - intros ->. reflexivity.
  - intros sd ->. eexists. split; [apply enter_run |].
    cbn [dao disk ticks].
    assert (Hall : Forall (fun name => is_Some (sd !! name)) (map_to_list sd).*1).
    { apply Forall_forall. intros name Hin. apply elem_of_file_names. exact Hin. }
    split; [reflexivity |]. split; [reflexivity |].
    split; [| split; [| split]].
    + rewrite load_all_min_time_any.
      destruct (decide (_state_file_name ∈ (map_to_list sd).*1)) as [Hin | Hnin];
        [reflexivity |].
      destruct (sd !! _state_file_name) eqn:Hs; [| reflexivity].
      exfalso. apply Hnin. apply elem_of_file_names. eauto.
    + intros id Hne. rewrite load_all_clients by exact Hall.
      destruct (decide (id ∈ (map_to_list sd).*1 /\ id <> _state_file_name))
        as [[Hin _] | Hnot].
      * apply elem_of_file_names in Hin. destruct Hin as [v Hv]. rewrite Hv.
        reflexivity.
      * destruct (sd !! id) eqn:Hs; [| reflexivity].
        exfalso. apply Hnot. split; [| exact Hne]. apply elem_of_file_names. eauto.
    + rewrite load_all_clients by exact Hall.
      rewrite decide_False by (intros [_ H]; congruence). reflexivity.
    + apply load_all_other_fields.
Qed.

(** [_write_all_to_files] comes to a flush over the written snapshot. *)
Lemma write_all_run (clock : nat -> Z) (w : World) :
  (forall id, is_Some (_client_times (dao w) !! id) -> plain_file_name id = true) ->
  _write_all_to_files clock w
  = flush_log clock
      (mkWorld (dao w)
         (mkDisk (log_files (disk w))
            (Some (_client_times (dao w)
                   ∪ <[_state_file_name := _curr_min_time (dao w)]>
                       (default ∅ (state_dir (disk w))))))
         (ticks w)).
Proof.
  intros Hplain. destruct w as [d k tk]. cbn [dao disk ticks] in *.
  assert (Hitems : Forall (fun kv : string * pytime => plain_file_name kv.1 = true)
                     (map_to_list (_client_times d))).
  { apply Forall_forall. intros [i v] Hin. cbn [fst].
    apply Hplain. exists v. apply elem_of_map_to_list. exact Hin. }
  assert (Hgoal : forall lf sd0,
            bind (write_state_file _state_file_name (_curr_min_time d))
              (fun _ => bind (for_each (map_to_list (_client_times d))
                                (fun kv => write_state_file kv.1 kv.2))
                          (fun _ => flush_log clock))
              (mkWorld d (mkDisk lf (Some sd0)) tk)
            = flush_log clock
                (mkWorld d
                   (mkDisk lf (Some (_client_times d
                                     ∪ <[_state_file_name := _curr_min_time d]> sd0)))
                   tk)).
  { intros lf sd0.
    unfold bind at 1. unfold write_state_file at 1.
    change (plain_file_name _state_file_name) with true.
    unfold modify_disk at 1. cbn [dao disk ticks state_dir set_state_dir log_files
                                  default from_option id].
    unfold bind at 1. rewrite (for_each_write_state _ _ Hitems).
    destruct (map_to_list (_client_times d)) as [|kv r] eqn:Hl.
    - apply map_to_list_empty_iff in Hl. rewrite Hl.
      rewrite (left_id_L ∅ (∪)). reflexivity.
    - rewrite <- Hl.
      cbn [dao disk ticks state_dir set_state_dir log_files default from_option id].
      rewrite insert_all_union by apply NoDup_fst_map_to_list.
      rewrite list_to_map_to_list. reflexivity. }
  unfold _write_all_to_files.
  unfold bind at 1. unfold mkdir_state, modify_disk at 1.
  unfold bind at 1. unfold get_dao at 1.
  cbn [dao disk ticks].
  destruct k as [lf [sd0|]]; cbn [state_dir set_state_dir log_files default from_option id];
    apply Hgoal.
Qed.

(** X18.  [__exit__] with client identifiers that are plain file names:
    the snapshot is written before the flush and stays whatever the flush
    does: the state directory then holds the registry's clients and the
    minimum-time file over what it held before.  The registry is not
    changed, no queued entry is lost, and when [__exit__] returns normally
    the queue is empty and all of it is in the log file. *)
Theorem exit_saves_then_flushes (clock : nat -> Z) (w : World) :
  (forall id, is_Some (_client_times (dao w) !! id) -> plain_file_name id = true) ->
  let r := __exit__ clock w in
  state_dir (disk (snd r))
  = Some (_client_times (dao w)
          ∪ <[_state_file_name := _curr_min_time (dao w)]>
              (default ∅ (state_dir (disk w))))
  /\ _client_times (dao (snd r)) = _client_times (dao w)
  /\ _curr_min_time (dao (snd r)) = _curr_min_time (dao w)
  /\ log_lines_of (disk (snd r)) ++ _new_log_entries (dao (snd r))
     = log_lines_of (disk w) ++ _new_log_entries (dao w)
  /\ (fst r = Ok tt ->
      _new_log_entries (dao (snd r)) = []
      /\ log_lines_of (disk (snd r)) = log_lines_of (disk w) ++ _new_log_entries (dao w)).
Proof.
  intros Hplain r. subst r. unfold __exit__. rewrite (write_all_run clock w Hplain).
  set (w1 := mkWorld (dao w) _ (ticks w)).
  assert (Hlines : log_lines_of (disk w1) = log_lines_of (disk w)) by reflexivity.
  pose proof (flush_log_keeps_entries clock w1) as Hkeep.
  rewrite Hlines in Hkeep. cbn [w1 dao] in Hkeep.
  split; [rewrite flush_log_state_dir; reflexivity |].
  pose proof (flush_log_outcome clock w1) as Ho.
  split; [inversion Ho; reflexivity |].
  split; [inversion Ho; reflexivity |].
  split; [exact Hkeep |].
  intros Hok.
  assert (Hq : _new_log_entries (dao (snd (flush_log clock w1))) = []).
  { destruct (flush_log clock w1) as [[[]|e] w'] eqn:Hrun; cbn in Hok; [| discriminate].
    apply (flush_log_ok_empties clock w1 w'). exact Hrun. }
  split; [exact Hq |]. rewrite Hq, app_nil_r in Hkeep. exact Hkeep.
Qed.

Lemma exit_saves_then_flushes_witness :
  let w := mkWorld (dao_with (Some 5) {[ "a" := Some 5 ]} [entry_at 1] 0 None)
                   (mkDisk ∅ None) 1 in
  state_dir (disk (snd (__exit__ ticking w))) = Some {[ "a" := Some 5; "state" := Some 5 ]}.
Proof.
  intros w.
  destruct (exit_saves_then_flushes ticking w) as [H _].
  - intros id [v Hv]. cbn in Hv. apply lookup_singleton_Some in Hv.
    destruct Hv as [<- _]. reflexivity.
  - rewrite H. vm_compute. reflexivity.
Defined.

(** ** Reset *)

Lemma rename_log_file_absent (clock : nat -> Z) (time_str : Z -> string) (w : World) :
  log_files (disk w) !! _log_file_path = None ->
  _rename_log_file clock time_str w = (Ok "File doesn't exist", w).
Proof.
  intros H. unfold _rename_log_file. run_m. rewrite H. reflexivity.
Qed.

Lemma rename_log_file_present (clock : nat -> Z) (time_str : Z -> string) (w : World)
    (lines : list LogEntry) :
  log_files (disk w) !! _log_file_path = Some lines ->
  let name := _create_log_file_name_from_time time_str (clock (ticks w)) in
  lexists name (disk w) = false ->
  name ∉ _unique_log_file_names (dao w) ->
  _rename_log_file clock time_str w
  = (Ok "File was renamed successfully",
     mkWorld (set_unique_log_file_names (_unique_log_file_names (dao w) ++ [name]) (dao w))
             (mkDisk (<[name := lines]> (delete _log_file_path (log_files (disk w))))
                     (state_dir (disk w)))
             (S (ticks w))).
Proof.
  intros Hlog name Hfree Hnew.
  unfold _rename_log_file. run_m. rewrite Hlog.
  unfold _create_unique_log_file_path. run_m. fold name.
  rewrite Hfree, (bool_decide_eq_false_2 _ Hnew). cbn [orb]. run_m. reflexivity.
Qed.

Lemma reset_run (clock : nat -> Z) (time_str : Z -> string)
    (w : World) :
  _new_log_entries (dao w) = [] ->
  (forall id, is_Some (_client_times (dao w) !! id) -> plain_file_name id = true) ->
  let name := _create_log_file_name_from_time time_str (clock (ticks w)) in
  log_files (disk w) !! _log_file_path = None
  \/ (lexists name (disk w) = false /\ name ∉ _unique_log_file_names (dao w)) ->
  exists msg w',
    reset clock time_str w = (Ok msg, w')
    /\ log_files (disk w') !! _log_file_path = None
    /\ (forall lines, log_files (disk w) !! _log_file_path = Some lines ->
          log_files (disk w') !! name = Some lines)
    /\ (forall p, p <> _log_file_path -> p <> name ->
          log_files (disk w') !! p = log_files (disk w) !! p)
    /\ (forall n, n = _state_file_name \/ is_Some (_client_times (dao w) !! n) ->
          default ∅ (state_dir (disk w')) !! n = None)
    /\ (forall n, n <> _state_file_name -> _client_times (dao w) !! n = None ->
          default ∅ (state_dir (disk w')) !! n = default ∅ (state_dir (disk w)) !! n)
    /\ _client_times (dao w') = ∅
    /\ _curr_min_time (dao w') = None
    /\ _new_log_entries (dao w') = []
    /\ _current_total_entries (dao w') = _current_total_entries (dao w).
Proof.
  intros Hq Hplain name Hcase.
  assert (Hstate : forall d0 lf0 tk0,
            _client_times d0 = _client_times (dao w) ->
            exists msg w2,
              _delete_state_files (mkWorld d0 (mkDisk lf0 (state_dir (disk w))) tk0)
              = (Ok msg, w2)
              /\ dao w2 = d0 /\ log_files (disk w2) = lf0 /\ ticks w2 = tk0
              /\ (forall n, n = _state_file_name \/ is_Some (_client_times (dao w) !! n) ->
                    default ∅ (state_dir (disk w2)) !! n = None)
              /\ (forall n, n <> _state_file_name -> _client_times (dao w) !! n = None ->
                    default ∅ (state_dir (disk w2)) !! n
                    = default ∅ (state_dir (disk w)) !! n)).
  { intros d0 lf0 tk0 Hct. destruct (state_dir (disk w)) as [sd|].
    - do 2 eexists.
      split; [apply delete_state_files_run; rewrite Hct; exact Hplain |].
      cbn [dao disk ticks log_files state_dir default from_option id].
      do 3 (split; [reflexivity |]). split.
      + intros n Hn. rewrite delete_all_lookup.
        destruct (decide (n ∈ _get_client_file_paths d0)) as [Hin | Hnin];
          [reflexivity |].
        destruct Hn as [-> | Hn]; [apply lookup_delete_eq |].
        exfalso. apply Hnin. unfold _get_client_file_paths. rewrite Hct.
        apply elem_of_file_names. exact Hn.
      + intros n Hne Hnone. rewrite delete_all_lookup. rewrite decide_False.
        * apply lookup_delete_ne. congruence.
        * unfold _get_client_file_paths. rewrite Hct, elem_of_file_names, Hnone.
          intros [v Hv]. discriminate.
    - do 2 eexists. split; [reflexivity |].
      cbn [dao disk ticks log_files state_dir default from_option id].
      do 3 (split; [reflexivity |]). split; [intros n _; apply lookup_empty |].
      intros n _ _. reflexivity. }
  unfold reset. unfold bind at 1. rewrite (flush_log_idle clock w Hq).
  unfold bind at 1.
  destruct (log_files (disk w) !! _log_file_path) as [lines|] eqn:Hlog.
  - destruct Hcase as [Hcase | [Hfree Hnew]]; [discriminate |].
    assert (Hne : name <> _log_file_path).
    { intros Heq. unfold lexists in Hfree. rewrite Heq, Hlog in Hfree.
      apply bool_decide_eq_false in Hfree. apply Hfree. eauto. }
    rewrite (rename_log_file_present clock time_str w lines Hlog Hfree Hnew).
    fold name. unfold bind at 1.
    destruct (Hstate (set_unique_log_file_names
                        (_unique_log_file_names (dao w) ++ [name]) (dao w))
                (<[name := lines]> (delete _log_file_path (log_files (disk w))))
                (S (ticks w)) eq_refl)
      as (msg & w2 & Hrun & Hd & Hlf & Htk & Hsd & Hkeep).
    rewrite Hrun. unfold _clear_internal_state. run_m.
    do 2 eexists. split; [reflexivity |].
    cbn [dao disk log_files state_dir _client_times _curr_min_time _new_log_entries
         _current_total_entries set_curr_min_time set_client_times set_new_log_entries].
    rewrite Hlf, Hd.
    split; [rewrite lookup_insert_ne by exact Hne; apply lookup_delete_eq |].
    split; [intros lines' Hl; inversion Hl; subst; apply lookup_insert_eq |].
    split; [intros p Hp1 Hp2; rewrite lookup_insert_ne by congruence;
            apply lookup_delete_ne; congruence |].
    split; [exact Hsd |]. split; [exact Hkeep |]. repeat split.
  - rewrite (rename_log_file_absent clock time_str w Hlog). unfold bind at 1.
    destruct w as [d [lf sdo] tk]. cbn [dao disk ticks log_files state_dir] in *.
    destruct (Hstate d lf tk eq_refl) as (msg & w2 & Hrun & Hd & Hlf & Htk & Hsd & Hkeep).
    rewrite Hrun. unfold _clear_internal_state. run_m.
    do 2 eexists. split; [reflexivity |].
    cbn [dao disk log_files state_dir _client_times _curr_min_time _new_log_entries
         _current_total_entries set_curr_min_time set_client_times set_new_log_entries].
    rewrite Hlf, Hd.
    split; [exact Hlog |].
    split; [intros lines' Hl; congruence |].
    split; [intros p _ _; reflexivity |].
    split; [exact Hsd |]. split; [exact Hkeep |]. repeat split.
Qed.

(** X19.  [reset] on a flushed writer whose client identifiers are plain
    file names, with no log file or with a free backup name, returns
    normally and leaves: no live log file, its lines
    under the backup name, every other log file as it was; no minimum-time
    file and no file of a client of the registry, every other state file
    as it was; an empty registry without minimum and an empty queue.  The
    counter of persisted lines is kept. *)
Theorem reset_renames_and_clears (clock : nat -> Z) (time_str : Z -> string)
    (w : World) :
  _new_log_entries (dao w) = [] ->
  (forall id, is_Some (_client_times (dao w) !! id) -> plain_file_name id = true) ->
  let name := _create_log_file_name_from_time time_str (clock (ticks w)) in
  log_files (disk w) !! _log_file_path = None
  \/ (lexists name (disk w) = false /\ name ∉ _unique_log_file_names (dao w)) ->
  exists msg w',
    reset clock time_str w = (Ok msg, w')
    /\ log_files (disk w') !! _log_file_path = None
    /\ (forall lines, log_files (disk w) !! _log_file_path = Some lines ->
          log_files (disk w') !! name = Some lines)
    /\ (forall p, p <> _log_file_path -> p <> name ->
          log_files (disk w') !! p = log_files (disk w) !! p)
    /\ (forall n, n = _state_file_name \/ is_Some (_client_times (dao w) !! n) ->
          default ∅ (state_dir (disk w')) !! n = None)
    /\ (forall n, n <> _state_file_name -> _client_times (dao w) !! n = None ->
          default ∅ (state_dir (disk w')) !! n = default ∅ (state_dir (disk w)) !! n)
    /\ _client_times (dao w') = ∅
    /\ _curr_min_time (dao w') = None
    /\ _new_log_entries (dao w') = []
    /\ _current_total_entries (dao w') = _current_total_entries (dao w).
Proof. apply reset_run. Qed.

Lemma reset_renames_and_clears_witness :
  let w := mkWorld (dao_with (Some 5) {[ "a" := Some 5 ]} [] 1 None)
             (mkDisk {[ _log_file_path := [entry_at 1] ]}
                     (Some {[ "a" := Some 5; "state" := Some 5 ]})) 1 in
  exists msg w',
    reset ticking second_str w = (Ok msg, w')
    /\ log_files (disk w') !! _log_file_path = None
    /\ _client_times (dao w') = ∅.
Proof.
  intros w.
  destruct (reset_renames_and_clears ticking second_str w eq_refl)
    as (msg & w' & Hrun & Hlog & _ & _ & _ & _ & Hct & _).
  - intros id [v Hv]. cbn in Hv. apply lookup_singleton_Some in Hv.
    destruct Hv as [<- _]. reflexivity.
  - right. split; [reflexivity |]. vm_compute. apply not_elem_of_nil.
  - exists msg, w'. auto.
Defined.

(** X20.  [reset] with entries queued once the persisted counter has
    reached [max_entries_total]: the flush it starts with is refused, so
    [reset] raises [MaximumReachedError] and nothing is renamed, deleted
    or cleared: files and object are as before (in timing mode the clock
    has been read once). *)
Theorem reset_blocked_at_cap (clock : nat -> Z) (time_str : Z -> string) (w : World) :
  _new_log_entries (dao w) <> [] ->
  _maximum_reached false (dao w) = true ->
  reset clock time_str w
  = (Raise MaximumReachedError, mkWorld (dao w) (disk w) (flush_tick w)).
Proof.
  intros Hq Hm. unfold reset. unfold bind at 1.
  pose proof (flush_log_outcome clock w) as Ho.
  inversion Ho as [Hq' | Hq' Hm' | Hq' Hm' Hz | Hq' Hm' Hz];
    first [congruence | reflexivity].
Qed.

Lemma reset_blocked_at_cap_witness :
  let w := mkWorld (dao_with (Some 5) {[ "a" := Some 5 ]} [entry_at 3] 2 (Some 2))
             (mkDisk {[ _log_file_path := [entry_at 1; entry_at 2] ]} (Some ∅)) 1 in
  reset ticking second_str w = (Raise MaximumReachedError, w).
Proof.
  intros w.
  rewrite (reset_blocked_at_cap ticking second_str w).
  - reflexivity.
  - discriminate.
  - reflexivity.
Defined.





(** ** Names over a whole session *)

Lemma keeps_names_ret {A : Type} (a : A) : keeps_names (ret a).
Proof. intros w. exists []. cbn. rewrite app_nil_r. reflexivity. Qed.

Lemma keeps_names_raise {A : Type} (e : exn) : keeps_names (@raise A e).
Proof. intros w. exists []. cbn. rewrite app_nil_r. reflexivity. Qed.

Lemma keeps_names_lift {A : Type} (r : result A) : keeps_names (lift r).
Proof. intros w. exists []. cbn. rewrite app_nil_r. reflexivity. Qed.

Lemma keeps_names_get_dao : keeps_names get_dao.
Proof. intros w. exists []. cbn. rewrite app_nil_r. reflexivity. Qed.

Lemma keeps_names_get_disk : keeps_names get_disk.
Proof. intros w. exists []. cbn. rewrite app_nil_r. reflexivity. Qed.

Lemma keeps_names_modify_disk (f : Disk -> Disk) : keeps_names (modify_disk f).
Proof. intros w. exists []. cbn. rewrite app_nil_r. reflexivity. Qed.

Lemma keeps_names_time_time (clock : nat -> Z) : keeps_names (time_time clock).
Proof. intros w. exists []. cbn. rewrite app_nil_r. reflexivity. Qed.

Lemma keeps_names_modify_dao (f : StateDao -> StateDao) :
  (forall d, exists l, _unique_log_file_names (f d) = _unique_log_file_names d ++ l) ->
  keeps_names (modify_dao f).
Proof. intros Hf w. destruct (Hf (dao w)) as [l Hl]. exists l. exact Hl. Qed.

Lemma keeps_names_bind {A B : Type} (c : M A) (k : A -> M B) :
  keeps_names c -> (forall a, keeps_names (k a)) -> keeps_names (bind c k).
Proof.
  intros Hc Hk w. unfold bind. destruct (Hc w) as [l1 H1].
  destruct (c w) as [[a|e] w1]; cbn [snd] in *.
  - destruct (Hk a w1) as [l2 H2]. exists (l1 ++ l2).
    rewrite H2, H1, app_assoc. reflexivity.
  - exists l1. exact H1.
Qed.

Lemma keeps_names_for_each {A : Type} (l : list A) (body : A -> M unit) :
  (forall x, keeps_names (body x)) -> keeps_names (for_each l body).
Proof.
  intros Hbody. induction l as [|x r IH]; cbn [for_each].
  - apply keeps_names_ret.
  - apply keeps_names_bind; [apply Hbody | intros _; exact IH].
Qed.

(** A setter of another field keeps the names. *)
Ltac same_names := intros ?; exists []; cbn; rewrite app_nil_r; reflexivity.

Ltac keeps_step :=
  first
    [ apply keeps_names_ret | apply keeps_names_raise | apply keeps_names_lift
    | apply keeps_names_get_dao | apply keeps_names_get_disk
    | apply keeps_names_modify_disk | apply keeps_names_time_time
    | apply keeps_names_modify_dao; same_names
    | apply keeps_names_bind; [| intros ?]
    | match goal with
      | |- keeps_names (if ?b then _ else _) => destruct b
      | |- keeps_names (match ?x with _ => _ end) => destruct x
      end ].

Lemma keeps_names_flush_log (clock : nat -> Z) : keeps_names (flush_log clock).
Proof. unfold flush_log. repeat keeps_step. Qed.

Lemma keeps_names_append_to_log (clock : nat -> Z) (e : LogEntry) :
  keeps_names (append_to_log clock e).
Proof.
  unfold append_to_log.
  repeat first [apply keeps_names_flush_log | keeps_step].
Qed.

Lemma keeps_names_create_unique (clock : nat -> Z) (time_str : Z -> string) :
  keeps_names (_create_unique_log_file_path clock time_str).
Proof.
  unfold _create_unique_log_file_path.
  repeat first
    [ apply keeps_names_modify_dao; intros d; eexists; reflexivity
    | keeps_step ].
Qed.

Lemma keeps_names_set_client_time (identifier : string) (new_time : pytime) :
  keeps_names (set_client_time identifier new_time).
Proof. unfold set_client_time. repeat keeps_step. Qed.

Lemma keeps_names_get_client_time (identifier : string) :
  keeps_names (get_client_time identifier).
Proof.
  unfold get_client_time.
  repeat first [apply keeps_names_set_client_time | keeps_step].
Qed.

Lemma keeps_names_cut_log (clock : nat -> Z) (time_str : Z -> string) :
  keeps_names (cut_log clock time_str).
Proof.
  unfold cut_log, create_unique_log_file_path, copyfile.
  repeat first
    [ apply keeps_names_flush_log | apply keeps_names_create_unique | keeps_step ].
Qed.

Lemma keeps_names_reset (clock : nat -> Z) (time_str : Z -> string) :
  keeps_names (reset clock time_str).
Proof.
  unfold reset, _rename_log_file, _delete_state_files, _clear_internal_state,
    _delete_file_if_existing.
  repeat first
    [ apply keeps_names_flush_log | apply keeps_names_create_unique
    | apply keeps_names_for_each; intros ? | keeps_step ].
Qed.

Lemma run_session_keeps_names (clock : nat -> Z) (time_str : Z -> string)
    (ops : list session_op) (w : World) :
  exists l, _unique_log_file_names (dao (run_session clock time_str ops w))
            = _unique_log_file_names (dao w) ++ l.
Proof.
  revert w. induction ops as [|o ops IH]; intros w.
  - exists []. cbn. rewrite app_nil_r. reflexivity.
  - cbn [run_session fold_left].
    fold (run_session clock time_str ops (run_session_op clock time_str o w)).
    destruct (IH (run_session_op clock time_str o w)) as [l2 H2].
    assert (Hstep : exists l1,
              _unique_log_file_names (dao (run_session_op clock time_str o w))
              = _unique_log_file_names (dao w) ++ l1).
    { destruct o; cbn [run_session_op].
      - apply keeps_names_append_to_log.
      - apply keeps_names_flush_log.
      - apply keeps_names_cut_log.
      - apply keeps_names_reset.
      - apply keeps_names_create_unique.
      - exists []. rewrite count_log_lines_value. cbn. rewrite app_nil_r. reflexivity.
      - apply keeps_names_set_client_time.
      - apply keeps_names_get_client_time. }
    destruct Hstep as [l1 H1]. exists (l1 ++ l2).
    rewrite H2, H1, app_assoc. reflexivity.
Qed.

Lemma cut_log_ok_name (clock : nat -> Z) (time_str : Z -> string) (w w1 : World)
    (removed len : Z) (name : string) :
  cut_log clock time_str w = (Ok (Some (removed, len, name)), w1) ->
  name ∈ _unique_log_file_names (dao w1)
  /\ lexists name (disk w1) = true
  /\ lexists name (disk w) = false.
Proof.
  intros H. unfold cut_log in H. unfold bind at 1 in H. unfold get_disk at 1 in H.
  destruct (negb (lexists _log_file_path (disk w))); [discriminate |].
  unfold bind at 1 in H. unfold create_unique_log_file_path in H.
  destruct (_create_unique_log_file_path clock time_str w) as [[nfp|e] wa] eqn:Hc;
    [| discriminate].
  apply create_unique_ok in Hc. destruct Hc as (_ & Hfree & _ & Hwa).
  unfold bind at 1 in H.
  destruct (flush_log clock wa) as [[u|e] wb] eqn:Hf; [| discriminate].
  destruct (keeps_names_flush_log clock wa) as [l Hl]. rewrite Hf in Hl. cbn [snd] in Hl.
  unfold bind at 1 in H.
  destruct (copyfile _log_file_path nfp wb) as [[u'|e] wc] eqn:Hcopy; [| discriminate].
  assert (Hwc : dao wc = dao wb).
  { unfold copyfile, bind, get_disk, modify_disk, raise in Hcopy.
    destruct (log_files (disk wb) !! _log_file_path); inversion Hcopy; reflexivity. }
  unfold bind, get_disk, get_dao, lift, modify_disk, ret in H.
  cbn [dao disk ticks] in H.
  destruct (cut_scan _ _ _ _) as [kept|e]; [| discriminate].
  inversion H; subst. cbn [dao disk log_files].
  split; [| split; [| exact Hfree]].
  - rewrite Hwc, Hl. cbn [dao _unique_log_file_names set_unique_log_file_names].
    apply elem_of_app. left. apply elem_of_app. right. apply list_elem_of_here.
  - unfold lexists. apply bool_decide_eq_true.
    cbn [log_files set_log_files]. rewrite lookup_insert_eq. eauto.
Qed.

(** X14.  Names over a session.  Every name that
    [create_unique_log_file_path] returns is recorded in
    [_unique_log_file_names] and names no file that exists at the call, and
    so is the backup path that a successful [cut_log] returns, whose file
    then exists.  A recorded name is never returned again: whatever the
    session does in between (appends, flushes, cuts, resets, further name
    requests, counts, registry calls, failed or not), a later successful
    [create_unique_log_file_path] returns a different name. *)
Theorem unique_names_differ (clock : nat -> Z) (time_str : Z -> string) :
  (forall w w1 name,
     create_unique_log_file_path clock time_str w = (Ok name, w1) ->
     name ∈ _unique_log_file_names (dao w1) /\ lexists name (disk w) = false)
  /\ (forall w w1 removed len name,
        cut_log clock time_str w = (Ok (Some (removed, len, name)), w1) ->
        name ∈ _unique_log_file_names (dao w1) /\ lexists name (disk w1) = true)
  /\ (forall w1 w2 ops name1 name2,
        name1 ∈ _unique_log_file_names (dao w1) ->
        create_unique_log_file_path clock time_str (run_session clock time_str ops w1)
        = (Ok name2, w2) ->
        name1 <> name2).
Proof.
  split; [| split].
  - intros w w1 name H. unfold create_unique_log_file_path in H.
    apply create_unique_ok in H. destruct H as (_ & Hfree & _ & Hw1).
    split; [| exact Hfree]. rewrite Hw1.
    cbn [dao _unique_log_file_names set_unique_log_file_names].
    apply elem_of_app. right. apply list_elem_of_here.
  - intros w w1 removed len name H.
    destruct (cut_log_ok_name clock time_str w w1 removed len name H) as (H1 & H2 & _).
    auto.
  - intros w1 w2 ops name1 name2 Hin H. unfold create_unique_log_file_path in H.
    apply create_unique_ok in H. destruct H as (_ & _ & Hnew & _).
    intros Heq. apply Hnew.
    destruct (run_session_keeps_names clock time_str ops w1) as [l Hl].
    rewrite Hl. subst name2. apply elem_of_app. left. exact Hin.
Qed.

(** A cut creates its backup under the name of the first second; nine
    further name requests within that second fail; the request in the next
    second returns another name. *)
Lemma unique_names_differ_witness :
  let w := mkWorld (dao_with (Some 25) {[ "a" := Some 25 ]} [] 1 None)
             (mkDisk {[ _log_file_path := [entry_at 10] ]} (Some ∅)) 0 in
  let r1 := cut_log ticking second_str w in
  let r2 := create_unique_log_file_path ticking second_str
              (run_session ticking second_str (repeat DoUniquePath 9) (snd r1)) in
  fst r1 = Ok (Some (0, 1, "log/log_until_2017-12-20_18-08-25"))
  /\ lexists "log/log_until_2017-12-20_18-08-25" (disk (snd r1)) = true
  /\ fst r2 = Ok "log/log_until_2017-12-20_18-08-26"
  /\ "log/log_until_2017-12-20_18-08-25" <> "log/log_until_2017-12-20_18-08-26".
Proof.
  intros w r1 r2.
  destruct (unique_names_differ ticking second_str) as (_ & Hcut & Hlater).
  assert (H1 : cut_log ticking second_str w
               = (Ok (Some (0, 1, "log/log_until_2017-12-20_18-08-25")), snd r1))
    by (vm_compute; reflexivity).
  destruct (Hcut _ _ _ _ _ H1) as [Hin Hfile].
  split; [vm_compute; reflexivity |]. split; [exact Hfile |].
  split; [vm_compute; reflexivity |].
  apply (Hlater (snd r1) (snd r2) (repeat DoUniquePath 9)); [exact Hin |].
  vm_compute. reflexivity.
Defined.
